(** * Breaking-change detection between two OpenAPI documents

    A shallow embedding of [scripts/compare-openapi-breaking.py]: the pointer
    resolver [resolve_ref], the schema comparator [schema_breaks], the helper
    [required_params] and the document-level loops of [main], over parsed JSON
    trees, together with the part of Python's dynamic semantics these
    functions rely on (truthiness, [==], [set], [sorted], subscripting,
    [str]/[repr], and the exceptions they raise).

    Conventions of the model
    - A parsed document is a [json] tree.  Python's [None] and JSON [null] are
      the same value, [JNull]; [dict.get] of an absent key therefore yields
      [JNull].  Numbers are the integers ([JNum]); floating-point literals are
      outside the model.
    - Strings are byte strings holding UTF-8 text.  Byte-wise lexicographic
      order is code-point order, which is the order Python uses for [str].
      [repr] of a string is exact on ASCII text.
    - A [dict] is the list of its entries in insertion order; the keys of a
      parsed object are pairwise distinct, and lookup takes the first entry.
    - A Python call that can raise returns [res]; the recursion depth the
      interpreter allows is the [fuel] argument, and running out of it is
      [RecursionError]. *)

From Stdlib Require Import String Ascii List ZArith Bool Arith Lia.
From Stdlib Require Import DecimalString Permutation Sorted.
From Stdlib Require OrderedTypeEx.
Import ListNotations.
Local Open Scope list_scope.
Local Open Scope string_scope.

(* ================================================================== *)
(** ** Exceptions and the error monad *)

Inductive exn : Type :=
| TypeError
| AttributeError
| IndexError
| KeyError
| RecursionError
| OSError
| JSONDecodeError.

Inductive res (A : Type) : Type :=
| Ok (a : A)
| Raise (e : exn).
Arguments Ok {A} a.
Arguments Raise {A} e.

Definition bind {A B : Type} (r : res A) (k : A -> res B) : res B :=
  match r with
  | Ok a => k a
  | Raise e => Raise e
  end.

Notation "x <- e ;; k" := (bind e (fun x => k))
  (at level 61, e at next level, right associativity).

(** A [for] loop whose body yields findings: the bodies run in order, the
    first exception ends the loop. *)
Fixpoint for_each {A : Type} (l : list A) (body : A -> res (list string))
  : res (list string) :=
  match l with
  | [] => Ok []
  | x :: r => o <- body x ;; o' <- for_each r body ;; Ok (o ++ o')%list
  end.

(* ================================================================== *)
(** ** Strings *)

Definition lower_ascii (c : ascii) : ascii :=
  let n := nat_of_ascii c in
  if (65 <=? n)%nat && (n <=? 90)%nat then ascii_of_nat (n + 32) else c.

Definition upper_ascii (c : ascii) : ascii :=
  let n := nat_of_ascii c in
  if (97 <=? n)%nat && (n <=? 122)%nat then ascii_of_nat (n - 32) else c.

(** [str.lower] and [str.upper].  Only the ASCII letters are mapped: the one
    code point outside ASCII whose lower case is an ASCII letter is U+212A
    (to k), and no word of [http_methods] has a k, so membership of
    [lower k] in that vocabulary is decided as Python decides it, and a key
    that passes the test is made of ASCII letters only. *)
Fixpoint lower (s : string) : string :=
  match s with
  | EmptyString => EmptyString
  | String c r => String (lower_ascii c) (lower r)
  end.

Fixpoint upper (s : string) : string :=
  match s with
  | EmptyString => EmptyString
  | String c r => String (upper_ascii c) (upper r)
  end.

Definition startswith (s p : string) : bool := String.prefix p s.

(** [s[n:]] *)
Fixpoint drop (n : nat) (s : string) : string :=
  match n, s with
  | O, _ => s
  | S n', String _ r => drop n' r
  | S _, EmptyString => EmptyString
  end.

(** [s.split(sep)] for a one-character separator. *)
Fixpoint split_on (sep : ascii) (s : string) : list string :=
  match s with
  | EmptyString => [EmptyString]
  | String c r =>
      if Ascii.eqb c sep then EmptyString :: split_on sep r
      else match split_on sep r with
           | t :: ts => String c t :: ts
           | [] => [String c EmptyString]
           end
  end.

Definition is_continuation (c : ascii) : bool :=
  let n := nat_of_ascii c in (128 <=? n)%nat && (n <? 192)%nat.

(** Iterating a [str] yields its code points: a leading byte with the
    continuation bytes that follow it. *)
Fixpoint utf8_chars (s : string) : list string :=
  match s with
  | EmptyString => []
  | String c r =>
      let rest := utf8_chars r in
      match r, rest with
      | String d _, t :: ts =>
          if is_continuation d then String c t :: ts
          else String c EmptyString :: rest
      | _, _ => String c EmptyString :: rest
      end
  end.

Definition mem_str (s : string) (l : list string) : bool :=
  existsb (String.eqb s) l.

Definition dec_of_Z (n : Z) : string := NilZero.string_of_int (Z.to_int n).

Definition hex_digit (n : nat) : ascii :=
  if (n <? 10)%nat then ascii_of_nat (48 + n) else ascii_of_nat (87 + n).

Definition contains_ascii (c : ascii) (s : string) : bool :=
  existsb (Ascii.eqb c) (list_ascii_of_string s).

Definition apostrophe : ascii := ascii_of_nat 39.
Definition double_quote : ascii := ascii_of_nat 34.

(** [repr] of a [str]: the quote is the apostrophe unless the text has an
    apostrophe and no double quote; backslash, the quote, tab, newline and
    carriage return are escaped, other control characters are written
    [\xNN].  This is [repr] on ASCII text.  Beyond ASCII the bytes are
    kept, where Python escapes the code points that the Unicode tables of
    the interpreter class as not printable (U+00A0 is written [\xa0]): a
    property that quotes the text of [repr] is stated for ASCII text
    ([ascii_text]). *)
Definition repr_char (quote c : ascii) : string :=
  let n := nat_of_ascii c in
  if Ascii.eqb c quote || Ascii.eqb c "\"%char
  then String "\"%char (String c EmptyString)
  else if (n =? 9)%nat then "\t"
  else if (n =? 10)%nat then "\n"
  else if (n =? 13)%nat then "\r"
  else if (n <? 32)%nat || (n =? 127)%nat then
    String "\"%char (String "x"%char
      (String (hex_digit (n / 16)) (String (hex_digit (n mod 16)) EmptyString)))
  else String c EmptyString.

Definition repr_str (s : string) : string :=
  let quote :=
    if contains_ascii apostrophe s && negb (contains_ascii double_quote s)
    then double_quote else apostrophe in
  String quote
    (String.concat "" (map (repr_char quote) (list_ascii_of_string s))
     ++ String quote EmptyString).

(* ================================================================== *)
(** ** JSON values as Python objects *)

(** What [json.load] builds from a file whose numbers are integers.
    Floating-point numbers are left out: [NaN], which [json.load] accepts,
    is not equal to itself and is neither below nor above any number, so
    that what [sorted] makes of a set that holds it depends on the order in
    which the set hands its members over.  Every property below is about
    documents without such numbers. *)
#[warnings="-register-all"]
Inductive json : Type :=
| JNull
| JBool (b : bool)
| JNum (n : Z)
| JStr (s : string)
| JArr (l : list json)
| JObj (m : list (string * json)).

(** [bool(v)] *)
Definition py_truthy (v : json) : bool :=
  match v with
  | JNull => false
  | JBool b => b
  | JNum n => negb (n =? 0)%Z
  | JStr s => negb (s =? "")
  | JArr l => match l with [] => false | _ => true end
  | JObj m => match m with [] => false | _ => true end
  end.

(** [v or d] *)
Definition py_or (v d : json) : json := if py_truthy v then v else d.

Fixpoint dict_find (k : string) (m : list (string * json)) : option json :=
  match m with
  | [] => None
  | (k', v) :: r => if k =? k' then Some v else dict_find k r
  end.

(** [k in m] *)
Definition dict_has (k : string) (m : list (string * json)) : bool :=
  match dict_find k m with Some _ => true | None => false end.

(** [m.get(k)] *)
Definition dict_get (k : string) (m : list (string * json)) : json :=
  match dict_find k m with Some v => v | None => JNull end.

(** [list(m)]: the keys, each once, in insertion order. *)
Fixpoint dict_keys (m : list (string * json)) : list string :=
  match m with
  | [] => []
  | (k, _) :: r => k :: filter (fun k' => negb (k' =? k)) (dict_keys r)
  end.

(** [a == b].  [True] and [False] are the integers 1 and 0; lists are equal
    position by position; dicts are equal when they have as many entries and
    every entry of the first has an equal value under the same key in the
    second. *)
Fixpoint py_eq (a b : json) : bool :=
  match a, b with
  | JNull, JNull => true
  | JBool x, JBool y => Bool.eqb x y
  | JBool x, JNum n => (Z.b2z x =? n)%Z
  | JNum n, JBool y => (n =? Z.b2z y)%Z
  | JNum n, JNum n' => (n =? n')%Z
  | JStr s, JStr t => (s =? t)
  | JArr l, JArr l' =>
      (fix go (l l' : list json) : bool :=
         match l, l' with
         | [], [] => true
         | x :: xs, y :: ys => py_eq x y && go xs ys
         | _, _ => false
         end) l l'
  | JObj m, JObj m' =>
      (length m =? length m')%nat &&
      (fix go (m : list (string * json)) : bool :=
         match m with
         | [] => true
         | (k, v) :: r =>
             match dict_find k m' with
             | Some v' => py_eq v v'
             | None => false
             end && go r
         end) m
  | _, _ => false
  end.

(** Lists and dicts have no hash. *)
Definition py_hashable (v : json) : bool :=
  match v with
  | JArr _ | JObj _ => false
  | _ => true
  end.

(** [str(v)] and [repr(v)] *)
Fixpoint py_repr (v : json) : string :=
  match v with
  | JNull => "None"
  | JBool true => "True"
  | JBool false => "False"
  | JNum n => dec_of_Z n
  | JStr s => repr_str s
  | JArr l => "[" ++ String.concat ", " (map py_repr l) ++ "]"
  | JObj m =>
      "{" ++ String.concat ", "
               (map (fun kv => repr_str (fst kv) ++ ": " ++ py_repr (snd kv)) m)
          ++ "}"
  end.

Definition py_str (v : json) : string :=
  match v with
  | JStr s => s
  | _ => py_repr v
  end.

(** [iter(v)]: the elements of a list, the keys of a dict, the characters of
    a string; anything else is not iterable. *)
Definition py_iter (v : json) : res (list json) :=
  match v with
  | JArr l => Ok l
  | JObj m => Ok (map JStr (dict_keys m))
  | JStr s => Ok (map JStr (utf8_chars s))
  | _ => Raise TypeError
  end.

(** [v[k]] *)
Definition py_getitem (v k : json) : res json :=
  match v with
  | JObj m =>
      match k with
      | JStr s => match dict_find s m with Some x => Ok x | None => Raise KeyError end
      | JArr _ | JObj _ => Raise TypeError
      | _ => Raise KeyError
      end
  | JArr l =>
      match k with
      | JNum _ | JBool _ =>
          let i := match k with JNum n => n | JBool b => Z.b2z b | _ => 0%Z end in
          let j := if (i <? 0)%Z then (i + Z.of_nat (length l))%Z else i in
          if (j <? 0)%Z then Raise IndexError
          else match nth_error l (Z.to_nat j) with
               | Some x => Ok x
               | None => Raise IndexError
               end
      | _ => Raise TypeError
      end
  | JStr s =>
      match k with
      | JNum _ | JBool _ =>
          let cs := utf8_chars s in
          let i := match k with JNum n => n | JBool b => Z.b2z b | _ => 0%Z end in
          let j := if (i <? 0)%Z then (i + Z.of_nat (length cs))%Z else i in
          if (j <? 0)%Z then Raise IndexError
          else match nth_error cs (Z.to_nat j) with
               | Some x => Ok (JStr x)
               | None => Raise IndexError
               end
      | _ => Raise TypeError
      end
  | _ => Raise TypeError
  end.

(** [m.get(k)] for an arbitrary receiver and key: only a dict has [get]. *)
Definition py_get (v k : json) : res json :=
  match v with
  | JObj m =>
      match k with
      | JStr s => Ok (dict_get s m)
      | JArr _ | JObj _ => Raise TypeError
      | _ => Ok JNull
      end
  | _ => Raise AttributeError
  end.

(* ================================================================== *)
(** ** Sets and [sorted] *)

(** A set is the list of its members, pairwise different under [==]. *)
Definition py_mem (x : json) (s : list json) : bool := existsb (py_eq x) s.

(** [set(l)]: every member must have a hash; of equal members the first
    one stays. *)
Fixpoint set_of_list (l : list json) : res (list json) :=
  match l with
  | [] => Ok []
  | x :: r =>
      if py_hashable x then
        s <- set_of_list r ;;
        Ok (x :: filter (fun y => negb (py_eq y x)) s)
      else Raise TypeError
  end.

(** [set(v)] *)
Definition py_set (v : json) : res (list json) :=
  l <- py_iter v ;; set_of_list l.

(** [a - b] *)
Definition set_diff (a b : list json) : list json :=
  filter (fun x => negb (py_mem x b)) a.

(** [a & b]: CPython walks the smaller operand (the right one on a tie) and
    keeps those of its members found in the other. *)
Definition set_inter (a b : list json) : list json :=
  if (length a <? length b)%nat then filter (fun x => py_mem x b) a
  else filter (fun x => py_mem x a) b.

Section Sorted.
Context {A : Type}.
(** [lt_ok x y]: comparing [x] with [y] does not raise; [lt x y]: [x < y]. *)
Variables (lt_ok lt : A -> A -> bool).

Fixpoint insert_sorted (x : A) (l : list A) : list A :=
  match l with
  | [] => [x]
  | y :: r => if lt y x then y :: insert_sorted x r else x :: y :: r
  end.

Fixpoint isort (l : list A) : list A :=
  match l with
  | [] => []
  | x :: r => insert_sorted x (isort r)
  end.

Fixpoint pairwise_ok (l : list A) : bool :=
  match l with
  | [] => true
  | x :: r => forallb (lt_ok x) r && pairwise_ok r
  end.

(** [sorted(s)] of a set [s].  A comparison sort has compared every two
    members that end up next to each other, so it raises as soon as two
    members of the set cannot be compared, and otherwise returns the
    members in increasing order. *)
Definition sorted_by (l : list A) : res (list A) :=
  if pairwise_ok l then Ok (isort l) else Raise TypeError.
End Sorted.

Definition num_val (v : json) : option Z :=
  match v with
  | JBool b => Some (Z.b2z b)
  | JNum n => Some n
  | _ => None
  end.

(** [x < y] is defined between two numbers and between two strings
    (members of a set are never lists or dicts). *)
Definition py_lt_ok (x y : json) : bool :=
  match x, y with
  | JStr _, JStr _ => true
  | _, _ => match num_val x, num_val y with
            | Some _, Some _ => true
            | _, _ => false
            end
  end.

Definition py_lt (x y : json) : bool :=
  match x, y with
  | JStr s, JStr t => String.ltb s t
  | _, _ => match num_val x, num_val y with
            | Some a, Some b => (a <? b)%Z
            | _, _ => false
            end
  end.

Definition py_sorted (s : list json) : res (list json) :=
  sorted_by py_lt_ok py_lt s.

(** Sets of strings (keys of a dict). *)
Definition str_diff (a b : list string) : list string :=
  filter (fun x => negb (mem_str x b)) a.

Definition str_inter (a b : list string) : list string :=
  filter (fun x => mem_str x b) a.

Definition sort_str (s : list string) : list string := isort String.ltb s.

Definition nonempty {A : Type} (l : list A) : bool :=
  match l with [] => false | _ => true end.

(* ================================================================== *)
(** ** [resolve_ref] *)

(** The loop of lines 16-20: follow the tokens from [node]; [None] when a
    token is missing or the node reached is not a dict. *)
Fixpoint walk (node : json) (tokens : list string) : option json :=
  match tokens with
  | [] => Some node
  | token :: r =>
      match node with
      | JObj m =>
          match dict_find token m with
          | Some n => walk n r
          | None => None
          end
      | _ => None
      end
  end.

Definition ref_tokens (ref : string) : list string :=
  split_on "/"%char (drop 2 ref).

Fixpoint resolve_ref (fuel : nat) (schema doc : json) (seen : list string)
  : res json :=
  match fuel with
  | O => Raise RecursionError
  | S fuel' =>
      match schema with
      | JObj m =>
          let ref := dict_get "$ref" m in
          match ref with
          | JStr r =>
              if negb (py_truthy ref) || negb (startswith r "#/") then Ok schema
              else if mem_str r seen then Ok schema
              else
                match walk doc (ref_tokens r) with
                | None => Ok schema
                | Some node => resolve_ref fuel' node doc (r :: seen)
                end
          | _ => Ok schema
          end
      | _ => Ok schema
      end
  end.

(* ================================================================== *)
(** ** [schema_breaks] *)

(** Lines 38-43. *)
Definition enum_breaks (bm cm : list (string * json)) (ctx : string)
  : res (list string) :=
  let b_enum := dict_get "enum" bm in
  let c_enum := dict_get "enum" cm in
  match b_enum, c_enum with
  | JArr _, JArr _ =>
      sb <- py_set b_enum ;;
      sc <- py_set c_enum ;;
      removed <- py_sorted (set_diff sb sc) ;;
      Ok (if nonempty removed
          then [ctx ++ ": enum values removed: " ++ py_str (JArr removed)]
          else [])
  | _, _ => Ok []
  end.

(** Lines 46-50. *)
Definition required_breaks (bm cm : list (string * json)) (ctx : string)
  : res (list string) :=
  b_required <- py_set (py_or (dict_get "required" bm) (JArr [])) ;;
  c_required <- py_set (py_or (dict_get "required" cm) (JArr [])) ;;
  removed_required <- py_sorted (set_diff b_required c_required) ;;
  Ok (if nonempty removed_required
      then [ctx ++ ": required fields removed: " ++ py_str (JArr removed_required)]
      else []).

Fixpoint schema_breaks (fuel : nat)
  (base_schema curr_schema base_doc curr_doc : json) (ctx : string)
  : res (list string) :=
  match fuel with
  | O => Raise RecursionError
  | S fuel' =>
      b <- resolve_ref fuel' (py_or base_schema (JObj [])) base_doc [] ;;
      c <- resolve_ref fuel' (py_or curr_schema (JObj [])) curr_doc [] ;;
      match b, c with
      | JObj bm, JObj cm =>
          let b_type := dict_get "type" bm in
          let c_type := dict_get "type" cm in
          if py_truthy b_type && py_truthy c_type && negb (py_eq b_type c_type)
          then
            Ok [ctx ++ ": schema type changed from " ++ py_str b_type
                    ++ " to " ++ py_str c_type]
          else
            out_enum <- enum_breaks bm cm ctx ;;
            out_object <-
              (if py_eq b_type (JStr "object") || dict_has "properties" bm then
                 out_required <- required_breaks bm cm ctx ;;
                 let b_props := py_or (dict_get "properties" bm) (JObj []) in
                 let c_props := py_or (dict_get "properties" cm) (JObj []) in
                 sb <- py_set b_props ;;
                 sc <- py_set c_props ;;
                 removed_props <- py_sorted (set_diff sb sc) ;;
                 let out_props :=
                   if nonempty removed_props
                   then [ctx ++ ": response properties removed: "
                             ++ py_str (JArr removed_props)]
                   else [] in
                 shared <- py_sorted (set_inter sb sc) ;;
                 out_nested <-
                   for_each shared (fun prop =>
                     bp <- py_getitem b_props prop ;;
                     cp <- py_getitem c_props prop ;;
                     schema_breaks fuel' bp cp base_doc curr_doc
                       (ctx ++ "." ++ py_str prop)) ;;
                 Ok (out_required ++ out_props ++ out_nested)%list
               else Ok []) ;;
            out_array <-
              (if py_eq b_type (JStr "array") && py_eq c_type (JStr "array") then
                 schema_breaks fuel'
                   (py_or (dict_get "items" bm) (JObj []))
                   (py_or (dict_get "items" cm) (JObj []))
                   base_doc curr_doc (ctx ++ "[]")
               else Ok []) ;;
            Ok (out_enum ++ out_object ++ out_array)%list
      | _, _ => Ok []
      end
  end.

(* ================================================================== *)
(** ** [required_params] *)

(** A parameter key is the tuple [(p.get("in"), p.get("name"))]. *)
Definition param_key : Type := (json * json)%type.

Definition key_eq (p q : param_key) : bool :=
  py_eq (fst p) (fst q) && py_eq (snd p) (snd q).

(** Tuples compare at the first position where they differ. *)
Definition key_lt_ok (p q : param_key) : bool :=
  if py_eq (fst p) (fst q) then
    if py_eq (snd p) (snd q) then true else py_lt_ok (snd p) (snd q)
  else py_lt_ok (fst p) (fst q).

Definition key_lt (p q : param_key) : bool :=
  if py_eq (fst p) (fst q) then
    if py_eq (snd p) (snd q) then false else py_lt (snd p) (snd q)
  else py_lt (fst p) (fst q).

Definition key_mem (p : param_key) (s : list param_key) : bool :=
  existsb (key_eq p) s.

Definition key_diff (a b : list param_key) : list param_key :=
  filter (fun p => negb (key_mem p b)) a.

(** The loop of lines 87-89. *)
Fixpoint required_keys (params : list json) : res (list param_key) :=
  match params with
  | [] => Ok []
  | p :: r =>
      match p with
      | JObj pm =>
          match dict_get "required" pm with
          | JBool true =>
              let key := (dict_get "in" pm, dict_get "name" pm) in
              if py_hashable (fst key) && py_hashable (snd key) then
                s <- required_keys r ;;
                Ok (key :: filter (fun q => negb (key_eq q key)) s)
              else Raise TypeError
          | _ => required_keys r
          end
      | _ => required_keys r
      end
  end.

Definition required_params (op : json) : res (list param_key) :=
  match op with
  | JObj m =>
      params <- py_iter (py_or (dict_get "parameters" m) (JArr [])) ;;
      required_keys params
  | _ => Raise AttributeError
  end.

(* ================================================================== *)
(** ** The comparison of [main] *)

Definition http_methods : list string :=
  ["get"; "post"; "put"; "patch"; "delete"; "options"; "head"; "trace"].

(** [{k: v for k, v in item.items() if k.lower() in http_methods}] *)
Definition operations (item : json) : res (list (string * json)) :=
  match item with
  | JObj m => Ok (filter (fun kv => mem_str (lower (fst kv)) http_methods) m)
  | _ => Raise AttributeError
  end.

(** [bool((op.get("requestBody") or {}).get("required"))], [op] a dict. *)
Definition body_required (op : list (string * json)) : res bool :=
  match py_or (dict_get "requestBody" op) (JObj []) with
  | JObj rb => Ok (py_truthy (dict_get "required" rb))
  | _ => Raise AttributeError
  end.

(** [{code for code in (op.get("responses") or {}).keys()
      if str(code).startswith("2")}] *)
Definition success_codes (op : list (string * json)) : res (list string) :=
  match py_or (dict_get "responses" op) (JObj []) with
  | JObj r => Ok (filter (fun code => startswith code "2") (dict_keys r))
  | _ => Raise AttributeError
  end.

(** [(op.get("responses") or {}).get(code) or {}], the responses a dict. *)
Definition response_of (op : list (string * json)) (code : string) : json :=
  match py_or (dict_get "responses" op) (JObj []) with
  | JObj r => py_or (dict_get code r) (JObj [])
  | _ => JObj []
  end.

(** [resp.get("content") or {}] *)
Definition content_of (resp : json) : res json :=
  match resp with
  | JObj r => Ok (py_or (dict_get "content" r) (JObj []))
  | _ => Raise AttributeError
  end.

(** [(content.get(mt) or {}).get("schema") or {}] *)
Definition schema_of (content mt : json) : res json :=
  media <- py_get content mt ;;
  match py_or media (JObj []) with
  | JObj e => Ok (py_or (dict_get "schema" e) (JObj []))
  | _ => Raise AttributeError
  end.

(** Lines 142-164: one success code present on both sides. *)
Definition response_breaks (fuel : nat) (base current : json)
  (b c : list (string * json)) (method : string) (path : json) (code : string)
  : res (list string) :=
  let b_resp := response_of b code in
  let c_resp := response_of c code in
  b_content <- content_of b_resp ;;
  c_content <- content_of c_resp ;;
  sb <- py_set b_content ;;
  sc <- py_set c_content ;;
  removed_media <- py_sorted (set_diff sb sc) ;;
  shared <- py_sorted (set_inter sb sc) ;;
  out_schemas <-
    for_each shared (fun mt =>
      b_schema <- schema_of b_content mt ;;
      c_schema <- schema_of c_content mt ;;
      schema_breaks fuel b_schema c_schema base current
        (upper method ++ " " ++ py_str path ++ " " ++ code
           ++ " [" ++ py_str mt ++ "]")) ;;
  let out_media :=
    map (fun mt =>
           "Removed response media type " ++ py_str mt ++ " for "
             ++ upper method ++ " " ++ py_str path ++ " " ++ code)
        removed_media in
  Ok (out_media ++ out_schemas)%list.

(** Lines 122-164: one method present on both sides of a path. *)
Definition operation_breaks (fuel : nat) (base current : json)
  (b_ops c_ops : list (string * json)) (path : json) (method : string)
  : res (list string) :=
  let b := dict_get method b_ops in
  let c := dict_get method c_ops in
  c_params <- required_params c ;;
  b_params <- required_params b ;;
  new_required <- sorted_by key_lt_ok key_lt (key_diff c_params b_params) ;;
  match b, c with
  | JObj bo, JObj co =>
      b_req_required <- body_required bo ;;
      c_req_required <- body_required co ;;
      b_success <- success_codes bo ;;
      c_success <- success_codes co ;;
      out_responses <-
        for_each (sort_str (str_inter b_success c_success))
          (response_breaks fuel base current bo co method path) ;;
      let out_params :=
        map (fun p =>
               "Added required parameter on " ++ upper method ++ " "
                 ++ py_str path ++ ": " ++ py_str (fst p) ++ ":"
                 ++ py_str (snd p))
            new_required in
      let out_body :=
        if negb b_req_required && c_req_required
        then ["Request body became required: " ++ upper method ++ " "
                ++ py_str path]
        else [] in
      let out_codes :=
        map (fun code =>
               "Removed success response " ++ code ++ " on "
                 ++ upper method ++ " " ++ py_str path)
            (sort_str (str_diff b_success c_success)) in
      Ok (out_params ++ out_body ++ out_codes ++ out_responses)%list
  | _, _ => Raise AttributeError
  end.

(** Lines 115-164: one path present in both documents. *)
Definition path_breaks (fuel : nat) (base current base_paths curr_paths : json)
  (path : json) : res (list string) :=
  b_item <- py_getitem base_paths path ;;
  b_ops <- operations b_item ;;
  c_item <- py_getitem curr_paths path ;;
  c_ops <- operations c_item ;;
  out_shared <-
    for_each (sort_str (str_inter (dict_keys b_ops) (dict_keys c_ops)))
      (operation_breaks fuel base current b_ops c_ops path) ;;
  let out_removed :=
    map (fun method =>
           "Removed operation: " ++ upper method ++ " " ++ py_str path)
        (sort_str (str_diff (dict_keys b_ops) (dict_keys c_ops))) in
  Ok (out_removed ++ out_shared)%list.

(** [doc.get("paths", {})] *)
Definition paths_of (doc : json) : res json :=
  match doc with
  | JObj m =>
      match dict_find "paths" m with
      | Some v => Ok v
      | None => Ok (JObj [])
      end
  | _ => Raise AttributeError
  end.

(** Lines 106-164: the list [breaking] that [main] builds from the two
    loaded documents. *)
Definition compare_documents (fuel : nat) (base current : json)
  : res (list string) :=
  base_paths <- paths_of base ;;
  curr_paths <- paths_of current ;;
  sb <- py_set base_paths ;;
  sc <- py_set curr_paths ;;
  removed <- py_sorted (set_diff sb sc) ;;
  shared <- py_sorted (set_inter sb sc) ;;
  out_shared <-
    for_each shared (path_breaks fuel base current base_paths curr_paths) ;;
  let out_removed := map (fun path => "Removed path: " ++ py_str path) removed in
  Ok (out_removed ++ out_shared)%list.

(* ================================================================== *)
(** ** [main] *)

(** What a run leaves behind: the lines the program writes on each stream,
    the files opened, and the value returned (the exit status) or the
    exception that ended the run (the traceback the interpreter then prints
    is not counted among the lines). *)
Record outcome : Type := {
  stdout : list string;
  stderr : list string;
  opened : list string;
  status : res Z
}.

Definition usage : string :=
  "Usage: compare-openapi-breaking.py <base-spec.json> <current-spec.json>".

(** [load path] is what [load(path)] returns (the parsed file) or raises;
    [argv] is [sys.argv]. *)
Definition main (fuel : nat) (load : string -> res json) (argv : list string)
  : outcome :=
  if negb (length argv =? 3)%nat then
    {| stdout := [usage]; stderr := []; opened := []; status := Ok 2%Z |}
  else
    let p1 := nth 1 argv EmptyString in
    let p2 := nth 2 argv EmptyString in
    match load p1 with
    | Raise e => {| stdout := []; stderr := []; opened := [p1]; status := Raise e |}
    | Ok base =>
        match load p2 with
        | Raise e =>
            {| stdout := []; stderr := []; opened := [p1; p2]; status := Raise e |}
        | Ok current =>
            match compare_documents fuel base current with
            | Raise e =>
                {| stdout := []; stderr := []; opened := [p1; p2];
                   status := Raise e |}
            | Ok [] =>
                {| stdout := ["No breaking OpenAPI changes detected."];
                   stderr := []; opened := [p1; p2]; status := Ok 0%Z |}
            | Ok breaking =>
                {| stdout := "Breaking OpenAPI changes detected:"
                             :: map (fun item => " - " ++ item) breaking;
                   stderr := []; opened := [p1; p2]; status := Ok 1%Z |}
            end
        end
    end.

(* ================================================================== *)
(** ** Notions the properties are stated with *)

(** Lines 52-68 of [schema_breaks], for two dicts and a depth [fuel] left
    to the calls it makes. *)
Definition properties_breaks (fuel : nat) (bm cm : list (string * json))
  (base_doc curr_doc : json) (ctx : string) : res (list string) :=
  let b_props := py_or (dict_get "properties" bm) (JObj []) in
  let c_props := py_or (dict_get "properties" cm) (JObj []) in
  sb <- py_set b_props ;;
  sc <- py_set c_props ;;
  removed_props <- py_sorted (set_diff sb sc) ;;
  let out_props :=
    if nonempty removed_props
    then [ctx ++ ": response properties removed: " ++ py_str (JArr removed_props)]
    else [] in
  shared <- py_sorted (set_inter sb sc) ;;
  out_nested <-
    for_each shared (fun prop =>
      bp <- py_getitem b_props prop ;;
      cp <- py_getitem c_props prop ;;
      schema_breaks fuel bp cp base_doc curr_doc (ctx ++ "." ++ py_str prop)) ;;
  Ok (out_props ++ out_nested)%list.

(** Lines 38-81, reached when no type change is reported. *)
Definition structure_breaks (fuel : nat) (bm cm : list (string * json))
  (base_doc curr_doc : json) (ctx : string) : res (list string) :=
  let b_type := dict_get "type" bm in
  let c_type := dict_get "type" cm in
  out_enum <- enum_breaks bm cm ctx ;;
  out_object <-
    (if py_eq b_type (JStr "object") || dict_has "properties" bm then
       out_required <- required_breaks bm cm ctx ;;
       out_props <- properties_breaks fuel bm cm base_doc curr_doc ctx ;;
       Ok (out_required ++ out_props)%list
     else Ok []) ;;
  out_array <-
    (if py_eq b_type (JStr "array") && py_eq c_type (JStr "array") then
       schema_breaks fuel
         (py_or (dict_get "items" bm) (JObj []))
         (py_or (dict_get "items" cm) (JObj []))
         base_doc curr_doc (ctx ++ "[]")
     else Ok []) ;;
  Ok (out_enum ++ out_object ++ out_array)%list.

(** The test of line 34. *)
Definition type_changed (bm cm : list (string * json)) : bool :=
  let b_type := dict_get "type" bm in
  let c_type := dict_get "type" cm in
  py_truthy b_type && py_truthy c_type && negb (py_eq b_type c_type).



(** The two lists the loops of lines 110 and 114 run over. *)
Definition removed_paths (bp cp : list (string * json)) : list string :=
  sort_str (str_diff (dict_keys bp) (dict_keys cp)).

Definition shared_paths (bp cp : list (string * json)) : list string :=
  sort_str (if (length (dict_keys bp) <? length (dict_keys cp))%nat
            then str_inter (dict_keys bp) (dict_keys cp)
            else str_inter (dict_keys cp) (dict_keys bp)).


(** [begins p f]: the text [f] starts with [p]. *)
Definition begins (p f : string) : Prop := exists r, f = p ++ r.

(** The pointer a node carries, if any. *)
Definition own_ref (v : json) : list string :=
  match v with
  | JObj m => match dict_get "$ref" m with JStr r => [r] | _ => [] end
  | _ => []
  end.

(** The pointers carried by the nodes of a tree. *)
Fixpoint all_refs (v : json) : list string :=
  match v with
  | JObj m => (own_ref v ++ flat_map (fun kv => all_refs (snd kv)) m)%list
  | JArr l => flat_map all_refs l
  | _ => []
  end.

Fixpoint distinct (l : list string) : bool :=
  match l with
  | [] => true
  | x :: r => negb (mem_str x r) && distinct r
  end.

(** A tree as the JSON loader builds it: no dict holds a key twice. *)
Fixpoint well_formed (v : json) : bool :=
  match v with
  | JArr l => forallb well_formed l
  | JObj m => distinct (map fst m) && forallb (fun kv => well_formed (snd kv)) m
  | _ => true
  end.

(** Both members of a parameter key have a hash. *)
Definition key_hashable (k : param_key) : bool :=
  py_hashable (fst k) && py_hashable (snd k).

(** The kinds of lines [main] can report: the six texts of lines 111-150,
    and the findings of [schema_breaks], whose context starts with a method
    name in upper case. *)
Definition finding_kind (f : string) : Prop :=
  begins "Removed path: " f
  \/ begins "Removed operation: " f
  \/ begins "Added required parameter on " f
  \/ begins "Request body became required: " f
  \/ begins "Removed success response " f
  \/ begins "Removed response media type " f
  \/ exists m, In m http_methods /\ begins (upper m ++ " ") f.

(** Nesting depth of a tree. *)
Fixpoint depth (v : json) : nat :=
  match v with
  | JArr l => S (list_max (map depth l))
  | JObj m => S (list_max (map (fun kv => depth (snd kv)) m))
  | _ => 0
  end.

(** A schema as the data model has it, without pointers: an object whose
    [enum], if a list, holds scalars, whose [required] is absent or a list
    of names, whose [properties] is absent or maps names to such schemas,
    and whose [items] is absent or such a schema. *)
#[warnings="-register-all"]
Inductive plain_schema : json -> Prop :=
| plain_schema_object (m : list (string * json)) :
    dict_find "$ref" m = None ->
    (forall l, dict_get "enum" m = JArr l -> forallb py_hashable l = true) ->
    (dict_get "required" m = JNull
     \/ exists names, dict_get "required" m = JArr (map JStr names)) ->
    (dict_get "properties" m = JNull
     \/ exists ps, dict_get "properties" m = JObj ps
                   /\ forall k v, dict_find k ps = Some v -> plain_schema v) ->
    (dict_get "items" m = JNull \/ plain_schema (dict_get "items" m)) ->
    plain_schema (JObj m).

(** A schema without pointers whose fields have the types the data model
    gives them: an [enum] that is a list holds strings, [required] is absent
    or a list of names, [properties] is absent or maps names to such
    schemas, and [items] is absent or such a schema. *)
#[warnings="-register-all"]
Inductive typed_schema : json -> Prop :=
| typed_schema_object (m : list (string * json)) :
    dict_find "$ref" m = None ->
    (forall l, dict_get "enum" m = JArr l -> exists vals, l = map JStr vals) ->
    (dict_get "required" m = JNull
     \/ exists names, dict_get "required" m = JArr (map JStr names)) ->
    (dict_get "properties" m = JNull
     \/ exists ps, dict_get "properties" m = JObj ps
                   /\ forall k v, dict_find k ps = Some v -> typed_schema v) ->
    (dict_get "items" m = JNull \/ typed_schema (dict_get "items" m)) ->
    typed_schema (JObj m).

(** An entry of [parameters] that [required_params] can key and the sort of
    line 126 can order: when it is a dict with [required] exactly [true],
    its [in] and [name] are strings. *)
Definition typed_parameter (p : json) : Prop :=
  forall pm, p = JObj pm -> dict_get "required" pm = JBool true ->
    exists loc name,
      dict_get "in" pm = JStr loc /\ dict_get "name" pm = JStr name.

(** The value under a media type: [null], or a dict whose [schema] is absent
    or a schema with fields of the expected types. *)
Definition typed_media (media : json) : Prop :=
  media = JNull \/
  exists e, media = JObj e /\
    (dict_get "schema" e = JNull \/ typed_schema (dict_get "schema" e)).

(** A response: [null], or a dict whose [content] is absent or maps media
    types to such values. *)
Definition typed_response (resp : json) : Prop :=
  resp = JNull \/
  exists r, resp = JObj r /\
    (dict_get "content" r = JNull \/
     exists c, dict_get "content" r = JObj c /\
       forall mt media, dict_find mt c = Some media -> typed_media media).

(** An operation: a dict whose [parameters] is absent or a list of such
    entries, whose [requestBody] is absent or a dict, and whose [responses]
    is absent or maps codes to such responses. *)
Definition typed_operation (op : json) : Prop :=
  exists m, op = JObj m /\
    (dict_get "parameters" m = JNull \/
     exists ps, dict_get "parameters" m = JArr ps /\ Forall typed_parameter ps) /\
    (dict_get "requestBody" m = JNull \/
     exists rb, dict_get "requestBody" m = JObj rb) /\
    (dict_get "responses" m = JNull \/
     exists rs, dict_get "responses" m = JObj rs /\
       forall code resp, dict_find code rs = Some resp -> typed_response resp).

(** A path item: a dict whose values under the method keys are such
    operations. *)
Definition typed_path_item (item : json) : Prop :=
  exists m, item = JObj m /\
    forall k op, dict_find k m = Some op ->
      mem_str (lower k) http_methods = true -> typed_operation op.

(** A document without pointers whose fields have the types the data model
    gives them: a dict whose [paths] is absent or maps paths to such items. *)
Definition typed_document (doc : json) : Prop :=
  exists m, doc = JObj m /\
    (dict_find "paths" m = None \/
     exists ps, dict_find "paths" m = Some (JObj ps) /\
       forall p item, dict_find p ps = Some item -> typed_path_item item).

(** A parameter key made of two strings. *)
Definition string_key (key : param_key) : Prop :=
  exists loc name, key = (JStr loc, JStr name).


(* ================================================================== *)
(** ** Inputs the properties are tried on *)

(** A schema that refers to itself. *)
Module Cyclic.

Definition node_pointer : string := "#/components/schemas/Node".

(** [{"$ref": "#/components/schemas/Node"}] *)
Definition node_ref : json := JObj [("$ref", JStr node_pointer)].

(** [{"type": "object", "properties": {"next": {"$ref": ...}}}] *)
Definition node_schema : json :=
  JObj [("type", JStr "object"); ("properties", JObj [("next", node_ref)])].

Definition operation : json :=
  JObj [("responses",
         JObj [("200",
                JObj [("content",
                       JObj [("application/json",
                              JObj [("schema", node_ref)])])])])].

(** A document with one operation, [GET /nodes], that answers with a
    [Node], a linked list whose [next] is a [Node] again. *)
Definition document : json :=
  JObj [("paths", JObj [("/nodes", JObj [("get", operation)])]);
        ("components", JObj [("schemas", JObj [("Node", node_schema)])])].

End Cyclic.

(** [{"type": "object", "required": true}]: [required] given as a boolean,
    as schema drafts before the fourth wrote it. *)
Definition boolean_required : json :=
  JObj [("type", JStr "object"); ("required", JBool true)].

(** A schema of the given type whose [enum] holds a dict and a list. *)
Definition object_enum (type : string) : json :=
  JObj [("type", JStr type); ("enum", JArr [JObj [("a", JNum 1)]; JArr []])].

(** An object schema and a later version of it that adds the property
    [name] and changes the type of [id]. *)
Definition pet_base : json :=
  JObj [("type", JStr "object");
        ("required", JArr [JStr "id"]);
        ("properties", JObj [("id", JObj [("type", JStr "string")])])].

Definition pet_curr : json :=
  JObj [("type", JStr "object");
        ("required", JArr [JStr "id"]);
        ("properties", JObj [("id", JObj [("type", JStr "integer")]);
                             ("name", JObj [("type", JStr "string")])])].

(** Two pointers that point at each other. *)
Definition pointer_loop : json :=
  JObj [("a", JObj [("$ref", JStr "#/b")]); ("b", JObj [("$ref", JStr "#/a")])].

(** An operation and a later version of it: the later one requires the
    query parameter [filter] and a request body, answers 200 with XML no
    more, and has lost its answer 204. *)
Definition list_pets_v1 : json :=
  JObj [("parameters",
         JArr [JObj [("in", JStr "query"); ("name", JStr "id");
                     ("required", JBool true)];
               JObj [("in", JStr "query"); ("name", JStr "filter")];
               JStr "unused"]);
        ("responses",
         JObj [("200", JObj [("content",
                              JObj [("application/json",
                                     JObj [("schema", pet_base)]);
                                    ("application/xml", JObj [])])]);
               ("204", JObj []);
               ("404", JObj [])])].

Definition list_pets_v2 : json :=
  JObj [("parameters",
         JArr [JObj [("in", JStr "query"); ("name", JStr "id");
                     ("required", JBool true)];
               JObj [("in", JStr "query"); ("name", JStr "filter");
                     ("required", JBool true)]]);
        ("requestBody", JObj [("required", JBool true)]);
        ("responses",
         JObj [("200", JObj [("content",
                              JObj [("application/json",
                                     JObj [("schema", pet_curr)])])])])].

(** What the comparison of the two versions, as [GET /pets], reports. *)
Definition list_pets_findings : list string :=
  ["Added required parameter on GET /pets: query:filter";
   "Request body became required: GET /pets";
   "Removed success response 204 on GET /pets";
   "Removed response media type application/xml for GET /pets 200";
   "GET /pets 200 [application/json].id: schema type changed from string to integer"].

(** A document with the one path [p]. *)
Definition one_path (p : string) (item : json) : json :=
  JObj [("paths", JObj [(p, item)])].

(** A node whose pointer leads nowhere in the document of [Cyclic]. *)
Definition dangling : json :=
  JObj [("$ref", JStr "#/components/schemas/Missing")].










(** Two versions of a document: the first has the path [/old] and, under
    [/pets], the operations [GET] and [post]; the second has [/pets] only,
    with the operations [get] and [post] in their later version. *)
Definition pets_v1_item : list (string * json) :=
  [("GET", list_pets_v1); ("post", list_pets_v1)].


Definition pets_v1_paths : list (string * json) :=
  [("/old", JObj [("get", list_pets_v1)]); ("/pets", JObj pets_v1_item)].


Definition pets_v1 : json := JObj [("paths", JObj pets_v1_paths)].



(* ================================================================== *)
(** * Properties *)

(** ** The error monad and loops *)

Lemma bind_ok {A B : Type} (r : res A) (k : A -> res B) (v : B) :
  bind r k = Ok v -> exists a, r = Ok a /\ k a = Ok v.
Proof.
  destruct r as [a|e]; simpl; intro H; [exists a; auto | discriminate].
Qed.

Ltac bind_inv H :=
  let a := fresh "v" in
  let Ha := fresh "E" in
  apply bind_ok in H; destruct H as (a & Ha & H).

Tactic Notation "bind_split" hyp(H) "as" ident(a) ident(Ha) :=
  apply bind_ok in H; destruct H as (a & Ha & H).

Lemma for_each_ok_in {A : Type} (body : A -> res (list string)) :
  forall (l : list A) (out : list string),
    for_each l body = Ok out ->
    forall f, In f out -> exists x o, In x l /\ body x = Ok o /\ In f o.
Proof.
  induction l as [|x l IH]; simpl; intros out H f Hf.
  - inversion H; subst; contradiction.
  - bind_inv H. bind_inv H. inversion H; subst; clear H.
    apply in_app_or in Hf. destruct Hf as [Hf|Hf].
    + exists x, v; auto.
    + destruct (IH _ E0 f Hf) as (y & o & Hy & Hb & Ho).
      exists y, o; auto.
Qed.


(* ================================================================== *)
(** ** Sets of dict keys *)

Section SortedFacts.
Context {A : Type}.
Variable lt : A -> A -> bool.

Lemma insert_sorted_perm (x : A) (l : list A) :
  Permutation (insert_sorted lt x l) (x :: l).
Proof.
  induction l as [|y l IH]; simpl; [reflexivity|].
  destruct (lt y x); [|reflexivity].
  rewrite IH. apply perm_swap.
Qed.

Lemma isort_perm (l : list A) : Permutation (isort lt l) l.
Proof.
  induction l as [|x l IH]; simpl; [reflexivity|].
  rewrite insert_sorted_perm. constructor; assumption.
Qed.

Lemma isort_In (l : list A) (x : A) : In x (isort lt l) <-> In x l.
Proof.
  split; apply Permutation_in; [|symmetry]; apply isort_perm.
Qed.

End SortedFacts.

Lemma mem_str_In (x : string) (l : list string) :
  mem_str x l = true <-> In x l.
Proof.
  unfold mem_str. rewrite existsb_exists. split.
  - intros (y & Hy & E). apply String.eqb_eq in E. subst; assumption.
  - intro H. exists x. split; [assumption | apply String.eqb_refl].
Qed.

Lemma mem_str_not_In (x : string) (l : list string) :
  mem_str x l = false <-> ~ In x l.
Proof.
  rewrite <- mem_str_In. destruct (mem_str x l); split; congruence.
Qed.

Lemma dict_keys_In (m : list (string * json)) (k : string) :
  In k (dict_keys m) <-> dict_has k m = true.
Proof.
  unfold dict_has. induction m as [|[k' v] m IH]; simpl.
  - split; [contradiction | discriminate].
  - rewrite filter_In, IH. destruct (String.eqb_spec k k') as [->|N].
    + split; auto.
    + simpl. split.
      * intros [E|[H _]]; [congruence | assumption].
      * intro H. right. auto.
Qed.

Lemma dict_keys_NoDup (m : list (string * json)) : NoDup (dict_keys m).
Proof.
  induction m as [|[k v] m IH]; simpl; constructor.
  - rewrite filter_In. intros [_ H]. rewrite String.eqb_refl in H. discriminate.
  - apply NoDup_filter. assumption.
Qed.

Lemma py_mem_strs (x : string) (l : list string) :
  py_mem (JStr x) (map JStr l) = mem_str x l.
Proof.
  unfold py_mem, mem_str. induction l as [|y l IH]; [reflexivity|].
  cbn [map existsb]. rewrite IH. reflexivity.
Qed.

Lemma set_of_list_strs (l : list string) :
  NoDup l -> set_of_list (map JStr l) = Ok (map JStr l).
Proof.
  induction 1 as [|x l Hx Hl IH]; simpl; [reflexivity|].
  rewrite IH. simpl. f_equal. f_equal.
  clear IH Hl. induction l as [|y l IH]; simpl; [reflexivity|].
  destruct (String.eqb_spec y x) as [->|N]; simpl.
  - exfalso. apply Hx. left; reflexivity.
  - f_equal. apply IH. intro H. apply Hx. right; assumption.
Qed.

(** [set(d)] of a dict is the set of its keys. *)
Lemma py_set_dict (m : list (string * json)) :
  py_set (JObj m) = Ok (map JStr (dict_keys m)).
Proof.
  unfold py_set. simpl. apply set_of_list_strs, dict_keys_NoDup.
Qed.

Lemma set_diff_strs (a b : list string) :
  set_diff (map JStr a) (map JStr b) = map JStr (str_diff a b).
Proof.
  unfold set_diff, str_diff. induction a as [|x a IH]; simpl; [reflexivity|].
  rewrite py_mem_strs. destruct (mem_str x b); simpl; rewrite IH; reflexivity.
Qed.

Lemma filter_mem_strs (a b : list string) :
  filter (fun x => py_mem x (map JStr b)) (map JStr a) = map JStr (str_inter a b).
Proof.
  unfold str_inter. induction a as [|x a IH]; simpl; [reflexivity|].
  rewrite py_mem_strs. destruct (mem_str x b); simpl; rewrite IH; reflexivity.
Qed.

Lemma set_inter_strs (a b : list string) :
  set_inter (map JStr a) (map JStr b)
  = map JStr (if (length a <? length b)%nat then str_inter a b else str_inter b a).
Proof.
  unfold set_inter. rewrite !length_map.
  destruct (length a <? length b)%nat; apply filter_mem_strs.
Qed.

Lemma str_diff_In (a b : list string) (x : string) :
  In x (str_diff a b) <-> In x a /\ ~ In x b.
Proof.
  unfold str_diff. rewrite filter_In, negb_true_iff, mem_str_not_In. tauto.
Qed.

Lemma str_inter_In (a b : list string) (x : string) :
  In x (str_inter a b) <-> In x a /\ In x b.
Proof.
  unfold str_inter. rewrite filter_In, mem_str_In. tauto.
Qed.

Lemma pairwise_ok_strs (l : list string) :
  pairwise_ok py_lt_ok (map JStr l) = true.
Proof.
  induction l as [|x l IH]; simpl; [reflexivity|].
  rewrite IH, andb_true_r. apply forallb_forall.
  intros y Hy. apply in_map_iff in Hy. destruct Hy as (s & <- & _). reflexivity.
Qed.

Lemma insert_sorted_strs (x : string) (l : list string) :
  insert_sorted py_lt (JStr x) (map JStr l)
  = map JStr (insert_sorted String.ltb x l).
Proof.
  induction l as [|y l IH]; simpl; [reflexivity|].
  destruct (String.ltb y x); simpl; [rewrite IH|]; reflexivity.
Qed.

(** Sorting a set of strings never raises. *)
Lemma py_sorted_strs (l : list string) :
  py_sorted (map JStr l) = Ok (map JStr (sort_str l)).
Proof.
  unfold py_sorted, sorted_by, sort_str. rewrite pairwise_ok_strs. f_equal.
  induction l as [|x l IH]; simpl; [reflexivity|].
  rewrite IH. apply insert_sorted_strs.
Qed.

Lemma sort_str_In (l : list string) (x : string) :
  In x (sort_str l) <-> In x l.
Proof. apply isort_In. Qed.

(* ================================================================== *)
(** ** One level of [schema_breaks] *)

Lemma schema_breaks_resolved
  (fuel : nat) (base_schema curr_schema base_doc curr_doc : json) (ctx : string)
  (bm cm : list (string * json)) :
  resolve_ref fuel (py_or base_schema (JObj [])) base_doc [] = Ok (JObj bm) ->
  resolve_ref fuel (py_or curr_schema (JObj [])) curr_doc [] = Ok (JObj cm) ->
  schema_breaks (S fuel) base_schema curr_schema base_doc curr_doc ctx
  = if type_changed bm cm
    then Ok [ctx ++ ": schema type changed from " ++ py_str (dict_get "type" bm)
                 ++ " to " ++ py_str (dict_get "type" cm)]
    else structure_breaks fuel bm cm base_doc curr_doc ctx.
Proof.
  intros Hb Hc. simpl. rewrite Hb, Hc. simpl.
  unfold type_changed, structure_breaks, properties_breaks.
  destruct (py_truthy (dict_get "type" bm) && py_truthy (dict_get "type" cm)
            && negb (py_eq (dict_get "type" bm) (dict_get "type" cm)));
    [reflexivity|].
  destruct (enum_breaks bm cm ctx) as [oe|e]; [simpl|reflexivity].
  destruct (py_eq (dict_get "type" bm) (JStr "object") || dict_has "properties" bm);
    [|reflexivity].
  destruct (required_breaks bm cm ctx) as [orq|e]; [simpl|reflexivity].
  destruct (py_set (py_or (dict_get "properties" bm) (JObj []))) as [sb|e];
    [simpl|reflexivity].
  destruct (py_set (py_or (dict_get "properties" cm) (JObj []))) as [sc|e];
    [simpl|reflexivity].
  destruct (py_sorted (set_diff sb sc)) as [rp|e]; [simpl|reflexivity].
  destruct (py_sorted (set_inter sb sc)) as [sh|e]; [simpl|reflexivity].
  match goal with |- context [for_each sh ?f] => destruct (for_each sh f) as [on|e] end;
    reflexivity.
Qed.

(** When either side does not resolve to a dict there is nothing to compare. *)
Lemma schema_breaks_not_dict
  (fuel : nat) (base_schema curr_schema base_doc curr_doc : json) (ctx : string)
  (b c : json) :
  resolve_ref fuel (py_or base_schema (JObj [])) base_doc [] = Ok b ->
  resolve_ref fuel (py_or curr_schema (JObj [])) curr_doc [] = Ok c ->
  (forall bm cm, b = JObj bm -> c = JObj cm -> False) ->
  schema_breaks (S fuel) base_schema curr_schema base_doc curr_doc ctx = Ok [].
Proof.
  intros Hb Hc H. simpl. rewrite Hb, Hc. simpl.
  destruct b; try reflexivity. destruct c; try reflexivity.
  exfalso; eapply H; reflexivity.
Qed.

(* ================================================================== *)
(** ** The guard of [resolve_ref] *)

Lemma own_ref_all_refs (v : json) : incl (own_ref v) (all_refs v).
Proof.
  destruct v; simpl; try apply incl_nil_l. apply incl_appl, incl_refl.
Qed.

Lemma dict_find_refs (k : string) (n : json) :
  forall m, dict_find k m = Some n ->
    incl (all_refs n) (flat_map (fun kv => all_refs (snd kv)) m).
Proof.
  induction m as [|[k' v'] m IH]; simpl; [discriminate|].
  destruct (k =? k').
  - intro H. inversion H; subst. apply incl_appl, incl_refl.
  - intro H. apply incl_appr. auto.
Qed.

Lemma walk_refs :
  forall (tokens : list string) (node n : json),
    walk node tokens = Some n -> incl (all_refs n) (all_refs node).
Proof.
  induction tokens as [|t r IH]; simpl; intros node n H.
  - inversion H; subst. apply incl_refl.
  - destruct node as [| | | | |m]; try discriminate.
    destruct (dict_find t m) as [n1|] eqn:E; [|discriminate].
    eapply incl_tran; [eapply IH; eassumption|].
    change (all_refs (JObj m))
      with (own_ref (JObj m) ++ flat_map (fun kv => all_refs (snd kv)) m)%list.
    apply incl_appr. eapply dict_find_refs; eassumption.
Qed.

(** Each call that goes deeper has put one more pointer of [universe] into
    [seen]: with more depth than there are pointers left, the resolver
    returns. *)
Lemma resolve_ref_enough (doc : json) (universe : list string) :
  incl (all_refs doc) universe ->
  forall (fuel : nat) (schema : json) (seen : list string),
    NoDup seen ->
    incl seen universe ->
    incl (own_ref schema) universe ->
    length universe < fuel + length seen ->
    exists v, resolve_ref fuel schema doc seen = Ok v.
Proof.
  intros Hdoc. induction fuel as [|fuel IH]; intros schema seen Hnd Hseen Hown Hlen.
  - pose proof (NoDup_incl_length Hnd Hseen). simpl in Hlen. lia.
  - simpl. destruct schema as [| | | | |m]; try (eexists; reflexivity).
    simpl in Hown.
    destruct (dict_get "$ref" m) as [| | |r| |]; try (eexists; reflexivity).
    destruct (negb (py_truthy (JStr r)) || negb (startswith r "#/"));
      [eexists; reflexivity|].
    destruct (mem_str r seen) eqn:Hmem; [eexists; reflexivity|].
    destruct (walk doc (ref_tokens r)) as [node|] eqn:Hwalk;
      [|eexists; reflexivity].
    apply IH.
    + constructor; [|assumption]. apply mem_str_not_In; assumption.
    + intros x [<-|Hx]; [apply Hown; left; reflexivity | auto].
    + eapply incl_tran; [apply own_ref_all_refs|].
      eapply incl_tran; [eapply walk_refs; eassumption | assumption].
    + simpl. lia.
Qed.

(** The guard is enough for the resolver: whatever the schema and the
    document, pointer cycles included, [resolve_ref] returns once the depth
    allowed exceeds the number of pointers in the document by two. *)
Theorem resolve_ref_terminates :
  forall (schema doc : json) (fuel : nat),
    length (all_refs doc) + 1 < fuel ->
    exists v, resolve_ref fuel schema doc [] = Ok v.
Proof.
  intros schema doc fuel H.
  apply (resolve_ref_enough doc (own_ref schema ++ all_refs doc)%list).
  - apply incl_appr, incl_refl.
  - constructor.
  - apply incl_nil_l.
  - apply incl_appl, incl_refl.
  - rewrite length_app. simpl.
    assert (length (own_ref schema) <= 1).
    { destruct schema; simpl; try lia. destruct (dict_get "$ref" m); simpl; lia. }
    lia.
Qed.

(* ================================================================== *)
(** ** A schema that refers to itself *)

Lemma resolve_node_schema (n : nat) (seen : list string) :
  resolve_ref (S n) Cyclic.node_schema Cyclic.document seen = Ok Cyclic.node_schema.
Proof. reflexivity. Qed.

Lemma resolve_node_ref (n : nat) :
  resolve_ref (S (S n)) Cyclic.node_ref Cyclic.document [] = Ok Cyclic.node_schema.
Proof. reflexivity. Qed.

(** Every call on the pointer makes the same call one level deeper: no
    depth is enough. *)
Lemma pointer_exhausts :
  forall (fuel : nat) (ctx : string),
    schema_breaks fuel Cyclic.node_ref Cyclic.node_ref
      Cyclic.document Cyclic.document ctx
    = Raise RecursionError.
Proof.
  induction fuel as [|n IH]; intro ctx; [reflexivity|].
  destruct n as [|[|m]]; [reflexivity | reflexivity |].
  remember (S (S m)) as k eqn:Hk in *.
  assert (Hr : resolve_ref k (py_or Cyclic.node_ref (JObj [])) Cyclic.document []
               = Ok Cyclic.node_schema)
    by (subst k; reflexivity).
  simpl. rewrite Hr. simpl. rewrite IH. reflexivity.
Qed.

(** C5 (idempotence), at the self-referential schema: comparing [Node] with
    itself in the same document never returns the empty list; whatever the
    recursion depth allowed, the comparison ends in [RecursionError]. *)
Theorem idempotence_cyclic_schema_raises :
  forall (fuel : nat) (ctx : string),
    schema_breaks fuel Cyclic.node_schema Cyclic.node_schema
      Cyclic.document Cyclic.document ctx
    = Raise RecursionError.
Proof.
  intros [|[|n]] ctx; [reflexivity | reflexivity |].
  remember (S n) as k eqn:Hk in *.
  assert (Hr : resolve_ref k (py_or Cyclic.node_schema (JObj [])) Cyclic.document []
               = Ok Cyclic.node_schema)
    by (subst k; reflexivity).
  simpl. rewrite Hr. simpl. rewrite pointer_exhausts. reflexivity.
Qed.

(** C1 (termination on cyclic schemas), at a pair of documents whose one
    response schema is the self-referential [Node]: the comparison of the
    document with itself exhausts every recursion depth.  The set [seen] of
    [resolve_ref] is new at each call from [schema_breaks], so nothing
    remembers that [Node] was already entered through [properties.next]. *)
Theorem cyclic_document_exhausts_recursion :
  forall fuel : nat,
    compare_documents fuel Cyclic.document Cyclic.document = Raise RecursionError.
Proof.
  intro fuel. pose proof (pointer_exhausts fuel) as H.
  cbv -[schema_breaks] in *. rewrite H. reflexivity.
Qed.


(* ================================================================== *)
(** ** Malformed fields *)

(** C2 (never raises on malformed fields), at a schema whose [required] is
    [true]: [set(b.get("required") or [])] is [set(True)], and the
    comparison raises [TypeError] instead of returning findings. *)
Theorem boolean_required_raises :
  forall (fuel : nat) (base_doc curr_doc : json) (ctx : string),
    schema_breaks (S (S fuel)) boolean_required (JObj []) base_doc curr_doc ctx
    = Raise TypeError.
Proof. reflexivity. Qed.

(** The same exception leaves [sorted] when the values an [enum] lost are
    not of one kind, as for a nullable enumeration
    [{"enum": ["a", null]}] against [{"enum": []}]. *)
Example nullable_enum_raises :
  forall (fuel : nat) (base_doc curr_doc : json) (ctx : string),
    schema_breaks (S (S fuel))
      (JObj [("enum", JArr [JStr "a"; JNull])]) (JObj [("enum", JArr [])])
      base_doc curr_doc ctx
    = Raise TypeError.
Proof. reflexivity. Qed.

(* ================================================================== *)
(** ** The command line *)

(** C3, as the code has it: with a number of arguments other than two the
    usage text is printed on standard output ([print] is given no [file]),
    nothing is written to standard error, no file is opened and the value
    returned is 2. *)
Theorem main_wrong_arity :
  forall (fuel : nat) (load : string -> res json) (argv : list string),
    length argv <> 3 ->
    main fuel load argv
    = {| stdout := [usage]; stderr := []; opened := []; status := Ok 2%Z |}.
Proof.
  intros fuel load argv H. unfold main.
  destruct (Nat.eqb_spec (length argv) 3) as [E|_]; [contradiction|reflexivity].
Qed.

Lemma main_wrong_arity_witness :
  length ["compare-openapi-breaking.py"; "base.json"] <> 3 /\
  main 0 (fun _ => Raise OSError) ["compare-openapi-breaking.py"; "base.json"]
  = {| stdout := [usage]; stderr := []; opened := []; status := Ok 2%Z |}.
Proof.
  split; [simpl; lia | apply main_wrong_arity; simpl; lia].
Defined.

(** C3 as stated fails: called with no argument, the program leaves
    standard error empty; the usage text is on standard output. *)
Lemma usage_not_on_stderr :
  length ["compare-openapi-breaking.py"] <> 3 /\
  ~ In usage (stderr (main 0 (fun _ => Raise OSError)
                        ["compare-openapi-breaking.py"])) /\
  In usage (stdout (main 0 (fun _ => Raise OSError)
                      ["compare-openapi-breaking.py"])).
Proof.
  split; [simpl; lia|]. split; simpl; [tauto | auto].
Qed.

(* ================================================================== *)
(** ** Pointers that do not resolve *)

Lemma dangling_pointer_returned (fuel : nat) (m : list (string * json))
  (r : string) (doc : json) (seen : list string) :
  dict_get "$ref" m = JStr r ->
  walk doc (ref_tokens r) = None ->
  resolve_ref (S fuel) (JObj m) doc seen = Ok (JObj m).
Proof.
  intros Href Hwalk. simpl. rewrite Href.
  destruct (negb (py_truthy (JStr r)) || negb (startswith r "#/")); [reflexivity|].
  destruct (mem_str r seen); [reflexivity|].
  rewrite Hwalk. reflexivity.
Qed.

Lemma dangling_base_no_findings (fuel : nat) (r : string)
  (curr base_doc curr_doc c : json) (ctx : string) :
  walk base_doc (ref_tokens r) = None ->
  resolve_ref (S fuel) (py_or curr (JObj [])) curr_doc [] = Ok c ->
  schema_breaks (S (S fuel)) (JObj [("$ref", JStr r)]) curr base_doc curr_doc ctx
  = Ok [].
Proof.
  intros Hwalk Hc.
  assert (Hb : resolve_ref (S fuel) (py_or (JObj [("$ref", JStr r)]) (JObj []))
                 base_doc [] = Ok (JObj [("$ref", JStr r)]))
    by (apply (dangling_pointer_returned fuel _ r); [reflexivity | exact Hwalk]).
  destruct c as [| | | | |cm];
    try (eapply schema_breaks_not_dict;
         [exact Hb | exact Hc | intros ? ? _ E; discriminate E]).
  rewrite (schema_breaks_resolved _ _ _ _ _ _ _ _ Hb Hc).
  reflexivity.
Qed.

Lemma dangling_current_as_empty (fuel : nat) (r : string)
  (base base_doc curr_doc : json) (ctx : string) :
  walk curr_doc (ref_tokens r) = None ->
  schema_breaks (S (S fuel)) base (JObj [("$ref", JStr r)]) base_doc curr_doc ctx
  = schema_breaks (S (S fuel)) base (JObj []) base_doc curr_doc ctx.
Proof.
  intro Hwalk.
  assert (Hc : resolve_ref (S fuel) (py_or (JObj [("$ref", JStr r)]) (JObj []))
                 curr_doc [] = Ok (JObj [("$ref", JStr r)]))
    by (apply (dangling_pointer_returned fuel _ r); [reflexivity | exact Hwalk]).
  assert (He : resolve_ref (S fuel) (py_or (JObj []) (JObj [])) curr_doc []
               = Ok (JObj [])) by reflexivity.
  destruct (resolve_ref (S fuel) (py_or base (JObj [])) base_doc [])
    as [b|e] eqn:Hb.
  - destruct b as [| | | | |bm];
      try (rewrite (schema_breaks_not_dict _ _ _ _ _ _ _ _ Hb Hc)
             by (intros ? ? E _; discriminate E);
           rewrite (schema_breaks_not_dict _ _ _ _ _ _ _ _ Hb He)
             by (intros ? ? E _; discriminate E);
           reflexivity).
    rewrite (schema_breaks_resolved _ _ _ _ _ _ _ _ Hb Hc).
    rewrite (schema_breaks_resolved _ _ _ _ _ _ _ _ Hb He).
    reflexivity.
  - remember (S fuel) as k eqn:Hk. simpl. rewrite Hb. reflexivity.
Qed.

(** C7: a node whose pointer cannot be followed to the end (a token is
    missing, or the node reached is not a dict) is returned as it is, not
    resolved and without an exception, whatever [seen] holds.  It is then
    compared by the fields it holds itself: a node that holds nothing but
    the pointer yields no finding on the base side, and on the current side
    is compared as the empty schema is. *)
Theorem unresolvable_pointer_falls_back :
  forall (fuel : nat) (m : list (string * json)) (r : string)
         (doc : json) (seen : list string),
    dict_get "$ref" m = JStr r ->
    walk doc (ref_tokens r) = None ->
    resolve_ref (S fuel) (JObj m) doc seen = Ok (JObj m) /\
    (forall (curr curr_doc c : json) (ctx : string),
       resolve_ref (S fuel) (py_or curr (JObj [])) curr_doc [] = Ok c ->
       schema_breaks (S (S fuel)) (JObj [("$ref", JStr r)]) curr doc curr_doc ctx
       = Ok []) /\
    (forall (base base_doc : json) (ctx : string),
       schema_breaks (S (S fuel)) base (JObj [("$ref", JStr r)]) base_doc doc ctx
       = schema_breaks (S (S fuel)) base (JObj []) base_doc doc ctx).
Proof.
  intros fuel m r doc seen Href Hwalk. split; [|split].
  - exact (dangling_pointer_returned fuel m r doc seen Href Hwalk).
  - intros curr curr_doc c ctx Hc.
    exact (dangling_base_no_findings fuel r curr doc curr_doc c ctx Hwalk Hc).
  - intros base base_doc ctx.
    exact (dangling_current_as_empty fuel r base base_doc doc ctx Hwalk).
Qed.

Lemma unresolvable_pointer_falls_back_witness :
  dict_get "$ref" [("$ref", JStr "#/components/schemas/Missing")]
  = JStr "#/components/schemas/Missing" /\
  walk Cyclic.document (ref_tokens "#/components/schemas/Missing") = None /\
  resolve_ref 2 dangling Cyclic.document [] = Ok dangling /\
  schema_breaks 3 dangling pet_curr Cyclic.document Cyclic.document "Pet"
  = Ok [] /\
  schema_breaks 3 pet_base dangling Cyclic.document Cyclic.document "Pet"
  = schema_breaks 3 pet_base (JObj []) Cyclic.document Cyclic.document "Pet".
Proof.
  split; [reflexivity|]. split; [reflexivity|].
  destruct (unresolvable_pointer_falls_back 1
              [("$ref", JStr "#/components/schemas/Missing")]
              "#/components/schemas/Missing" Cyclic.document []
              eq_refl eq_refl) as (H1 & H2 & H3).
  split; [exact H1|]. split.
  - exact (H2 pet_curr Cyclic.document pet_curr "Pet" eq_refl).
  - exact (H3 pet_base Cyclic.document "Pet").
Defined.

(** C7 as stated fails: the current schema is a node whose pointer leads
    nowhere; it comes back unresolved, and the comparison of [pet_base] with
    it reports the required field and the property of the base as removed.
    The subtree of the unresolved node does contribute findings. *)
Lemma dangling_pointer_contributes_findings :
  walk Cyclic.document (ref_tokens "#/components/schemas/Missing") = None /\
  resolve_ref 2 dangling Cyclic.document [] = Ok dangling /\
  schema_breaks 3 pet_base dangling Cyclic.document Cyclic.document "Pet"
  = Ok ["Pet: required fields removed: ['id']";
        "Pet: response properties removed: ['id']"].
Proof. split; [reflexivity|]. split; reflexivity. Qed.

(** The node that comes back is compared by its own fields: on the base
    side a node that holds nothing but the pointer yields no finding. *)
Lemma unresolvable_base_is_opaque :
  forall (fuel : nat) (r : string) (curr base_doc curr_doc c : json)
         (ctx : string),
    walk base_doc (ref_tokens r) = None ->
    resolve_ref (S fuel) (py_or curr (JObj [])) curr_doc [] = Ok c ->
    schema_breaks (S (S fuel)) (JObj [("$ref", JStr r)]) curr base_doc curr_doc ctx
    = Ok [].
Proof.
  intros fuel r curr bd cd c ctx.
  exact (dangling_base_no_findings fuel r curr bd cd c ctx).
Qed.

(* ================================================================== *)
(** ** Type changes *)

Lemma type_change_reported
  (fuel : nat) (base_schema curr_schema base_doc curr_doc : json) (ctx : string)
  (bm cm : list (string * json)) :
  resolve_ref fuel (py_or base_schema (JObj [])) base_doc [] = Ok (JObj bm) ->
  resolve_ref fuel (py_or curr_schema (JObj [])) curr_doc [] = Ok (JObj cm) ->
  type_changed bm cm = true ->
  schema_breaks (S fuel) base_schema curr_schema base_doc curr_doc ctx
  = Ok [ctx ++ ": schema type changed from " ++ py_str (dict_get "type" bm)
            ++ " to " ++ py_str (dict_get "type" cm)].
Proof.
  intros Hb Hc Ht. rewrite (schema_breaks_resolved _ _ _ _ _ _ _ _ Hb Hc), Ht.
  reflexivity.
Qed.

(** C4: two schemas that resolve to dicts with different non-empty [type]
    strings get the one finding of line 35.  Nothing else of the two dicts
    is read: the equation holds whatever [enum], [required], [properties]
    and [items] are, and with no more depth than the resolution needed. *)
Theorem type_change_single_finding :
  forall (fuel : nat) (base_schema curr_schema base_doc curr_doc : json)
         (ctx : string) (bm cm : list (string * json)) (bt ct : string),
    resolve_ref fuel (py_or base_schema (JObj [])) base_doc [] = Ok (JObj bm) ->
    resolve_ref fuel (py_or curr_schema (JObj [])) curr_doc [] = Ok (JObj cm) ->
    dict_get "type" bm = JStr bt ->
    dict_get "type" cm = JStr ct ->
    bt <> EmptyString -> ct <> EmptyString -> bt <> ct ->
    schema_breaks (S fuel) base_schema curr_schema base_doc curr_doc ctx
    = Ok [ctx ++ ": schema type changed from " ++ bt ++ " to " ++ ct].
Proof.
  intros fuel b c bd cd ctx bm cm bt ct Hb Hc Hbt Hct Nb Nc Nbc.
  rewrite (type_change_reported _ _ _ _ _ ctx _ _ Hb Hc).
  - rewrite Hbt, Hct. reflexivity.
  - unfold type_changed. rewrite Hbt, Hct. simpl.
    apply String.eqb_neq in Nb, Nc, Nbc. rewrite Nb, Nc, Nbc. reflexivity.
Qed.

Lemma type_change_single_finding_witness :
  schema_breaks 2
    (JObj [("type", JStr "string"); ("properties", JNum 7)])
    (JObj [("type", JStr "integer"); ("required", JBool true)])
    JNull JNull "GET /a 200 [application/json]"
  = Ok ["GET /a 200 [application/json]: schema type changed from string to integer"].
Proof.
  refine (type_change_single_finding 1
            (JObj [("type", JStr "string"); ("properties", JNum 7)])
            (JObj [("type", JStr "integer"); ("required", JBool true)])
            JNull JNull "GET /a 200 [application/json]"
            [("type", JStr "string"); ("properties", JNum 7)]
            [("type", JStr "integer"); ("required", JBool true)]
            "string" "integer" eq_refl eq_refl eq_refl eq_refl _ _ _);
    discriminate.
Defined.

(* ================================================================== *)
(** ** Enumerations *)

Lemma set_of_list_raises (l : list json) (e : exn) :
  set_of_list l = Raise e -> e = TypeError.
Proof.
  induction l as [|x l IH]; simpl; [discriminate|].
  destruct (py_hashable x); [|intro H; inversion H; reflexivity].
  destruct (set_of_list l) as [s|e']; simpl; [discriminate|].
  intro H; inversion H; subst. apply IH; reflexivity.
Qed.

Lemma set_of_list_unhashable (l : list json) :
  (exists x, In x l /\ py_hashable x = false) ->
  set_of_list l = Raise TypeError.
Proof.
  induction l as [|y l IH]; intros (x & Hin & Hx); [contradiction|].
  simpl. destruct Hin as [->|Hin].
  - rewrite Hx. reflexivity.
  - destruct (py_hashable y); [|reflexivity].
    rewrite IH by (exists x; auto). reflexivity.
Qed.

Lemma enum_breaks_unhashable (bm cm : list (string * json)) (ctx : string)
  (be ce : list json) :
  dict_get "enum" bm = JArr be ->
  dict_get "enum" cm = JArr ce ->
  (exists x, In x (be ++ ce)%list /\ py_hashable x = false) ->
  enum_breaks bm cm ctx = Raise TypeError.
Proof.
  intros Hb Hc (x & Hin & Hx). unfold enum_breaks. rewrite Hb, Hc.
  unfold py_set. simpl.
  apply in_app_or in Hin. destruct Hin as [Hin|Hin].
  - rewrite (set_of_list_unhashable be) by (exists x; auto). reflexivity.
  - destruct (set_of_list be) as [sb|e] eqn:E; simpl.
    + rewrite (set_of_list_unhashable ce) by (exists x; auto). reflexivity.
    + apply set_of_list_raises in E. subst. reflexivity.
Qed.

(** C6, as the code has it: when the two schemas resolve to dicts for which
    no type change is reported and both carry an [enum] list, a member of
    either list that is a list or a dict makes the comparison raise
    [TypeError]. *)
Theorem structured_enum_member_raises :
  forall (fuel : nat) (base_schema curr_schema base_doc curr_doc : json)
         (ctx : string) (bm cm : list (string * json)) (be ce : list json),
    resolve_ref fuel (py_or base_schema (JObj [])) base_doc [] = Ok (JObj bm) ->
    resolve_ref fuel (py_or curr_schema (JObj [])) curr_doc [] = Ok (JObj cm) ->
    type_changed bm cm = false ->
    dict_get "enum" bm = JArr be ->
    dict_get "enum" cm = JArr ce ->
    (exists x, In x (be ++ ce)%list /\ py_hashable x = false) ->
    schema_breaks (S fuel) base_schema curr_schema base_doc curr_doc ctx
    = Raise TypeError.
Proof.
  intros fuel b c bd cd ctx bm cm be ce Hb Hc Ht Hbe Hce Hx.
  rewrite (schema_breaks_resolved _ _ _ _ _ _ _ _ Hb Hc), Ht.
  unfold structure_breaks.
  rewrite (enum_breaks_unhashable bm cm ctx be ce Hbe Hce Hx). reflexivity.
Qed.

Lemma structured_enum_member_raises_witness :
  schema_breaks 2 (object_enum "string") (object_enum "string") JNull JNull "ctx"
  = Raise TypeError.
Proof.
  apply (structured_enum_member_raises 1 _ _ JNull JNull "ctx"
           [("type", JStr "string"); ("enum", JArr [JObj [("a", JNum 1)]; JArr []])]
           [("type", JStr "string"); ("enum", JArr [JObj [("a", JNum 1)]; JArr []])]
           [JObj [("a", JNum 1)]; JArr []] [JObj [("a", JNum 1)]; JArr []]);
    try reflexivity.
  exists (JArr []). split; [simpl; auto | reflexivity].
Defined.

(** C6 as stated fails: both schemas carry an [enum] with a dict and a list
    among its members, their types differ, and the comparison returns the
    type finding without an error (the enums are never looked at). *)
Lemma structured_enum_behind_type_change :
  schema_breaks 2 (object_enum "string") (object_enum "integer") JNull JNull "ctx"
  = Ok ["ctx: schema type changed from string to integer"].
Proof. reflexivity. Qed.

(* ================================================================== *)
(** ** The context of a finding *)

Lemma str_app_assoc (a b c : string) : (a ++ b) ++ c = a ++ (b ++ c).
Proof. induction a as [|x a IH]; simpl; [|rewrite IH]; reflexivity. Qed.

Lemma str_app_inv_head (p a b : string) : p ++ a = p ++ b -> a = b.
Proof.
  induction p as [|x p IH]; simpl; intro H; [assumption|].
  inversion H. auto.
Qed.

Lemma begins_app (p q f : string) : begins (p ++ q) f -> begins p f.
Proof.
  intros (r & ->). exists (q ++ r). apply str_app_assoc.
Qed.

Lemma begins_trans (p q f : string) : begins p q -> begins q f -> begins p f.
Proof.
  intros (r & ->) H. eapply begins_app; eassumption.
Qed.

Lemma begins_app_inv (p a f : string) :
  begins (p ++ a) (p ++ f) -> begins a f.
Proof.
  intros (r & H). rewrite str_app_assoc in H.
  apply str_app_inv_head in H. exists r; assumption.
Qed.

Lemma enum_breaks_context (bm cm : list (string * json)) (ctx : string)
  (out : list string) :
  enum_breaks bm cm ctx = Ok out ->
  forall f, In f out -> begins (ctx ++ ": enum values removed: ") f.
Proof.
  unfold enum_breaks. intros H f Hf.
  destruct (dict_get "enum" bm); try (inversion H; subst; contradiction).
  destruct (dict_get "enum" cm); try (inversion H; subst; contradiction).
  bind_inv H. bind_inv H. bind_inv H. inversion H; subst; clear H.
  destruct (nonempty v1); [|contradiction].
  destruct Hf as [<-|[]]. eexists. rewrite str_app_assoc. reflexivity.
Qed.

Lemma required_breaks_context (bm cm : list (string * json)) (ctx : string)
  (out : list string) :
  required_breaks bm cm ctx = Ok out ->
  forall f, In f out -> begins (ctx ++ ": required fields removed: ") f.
Proof.
  unfold required_breaks. intros H f Hf.
  bind_inv H. bind_inv H. bind_inv H. inversion H; subst; clear H.
  destruct (nonempty v1); [|contradiction].
  destruct Hf as [<-|[]]. eexists. rewrite str_app_assoc. reflexivity.
Qed.

(** Every finding of a comparison starts with the context it was called
    with. *)
Lemma schema_breaks_context :
  forall (fuel : nat) (b c bd cd : json) (ctx : string) (out : list string),
    schema_breaks fuel b c bd cd ctx = Ok out ->
    forall f, In f out -> begins ctx f.
Proof.
  induction fuel as [|fuel IH]; intros b c bd cd ctx out H f Hf;
    [discriminate|].
  pose proof H as H0. simpl in H0. bind_inv H0. bind_inv H0. clear H0.
  destruct v as [| | | | |bm];
    try (rewrite (schema_breaks_not_dict _ _ _ _ _ _ _ _ E E0) in H;
         [inversion H; subst; contradiction | intros ? ? A _; discriminate A]).
  destruct v0 as [| | | | |cm];
    try (rewrite (schema_breaks_not_dict _ _ _ _ _ _ _ _ E E0) in H;
         [inversion H; subst; contradiction | intros ? ? _ A; discriminate A]).
  rewrite (schema_breaks_resolved _ _ _ _ _ _ _ _ E E0) in H.
  destruct (type_changed bm cm).
  { inversion H; subst. destruct Hf as [<-|[]]. eexists; reflexivity. }
  unfold structure_breaks in H.
  bind_split H as o_enum Henum. bind_split H as o_obj Hobj. bind_split H as o_arr Harr.
  inversion H; subst; clear H.
  apply in_app_or in Hf. destruct Hf as [Hf|Hf].
  { eapply begins_app, enum_breaks_context; eassumption. }
  apply in_app_or in Hf. destruct Hf as [Hf|Hf].
  - destruct (py_eq (dict_get "type" bm) (JStr "object") || dict_has "properties" bm);
      [|inversion Hobj; subst; contradiction].
    bind_split Hobj as o_req Hreq. bind_split Hobj as o_props Hprops.
    inversion Hobj; subst; clear Hobj.
    apply in_app_or in Hf. destruct Hf as [Hf|Hf].
    { eapply begins_app, required_breaks_context; eassumption. }
    unfold properties_breaks in Hprops.
    bind_split Hprops as sb Hsb. bind_split Hprops as sc Hsc.
    bind_split Hprops as removed Hremoved. bind_split Hprops as shared Hshared.
    bind_split Hprops as o_nested Hnested.
    inversion Hprops; subst; clear Hprops.
    apply in_app_or in Hf. destruct Hf as [Hf|Hf].
    + destruct (nonempty removed); [|contradiction].
      destruct Hf as [<-|[]]. eexists; reflexivity.
    + destruct (for_each_ok_in _ _ _ Hnested f Hf) as (prop & o & _ & Hb & Ho).
      bind_split Hb as bp Hbp. bind_split Hb as cp Hcp.
      eapply begins_app. eapply IH; eassumption.
  - destruct (py_eq (dict_get "type" bm) (JStr "array")
              && py_eq (dict_get "type" cm) (JStr "array"));
      [|inversion Harr; subst; contradiction].
    eapply begins_app. eapply IH; eassumption.
Qed.

(* ================================================================== *)
(** ** Additions are silent *)

Lemma py_eq_refl_hashable (x : json) : py_hashable x = true -> py_eq x x = true.
Proof.
  destruct x as [|b|n|s|l|m]; simpl; intro H; try discriminate.
  - reflexivity.
  - destruct b; reflexivity.
  - apply Z.eqb_refl.
  - apply String.eqb_refl.
Qed.

Lemma set_of_list_hashable (l s : list json) :
  set_of_list l = Ok s -> forall x, In x s -> py_hashable x = true.
Proof.
  revert s. induction l as [|y l IH]; simpl; intros s H x Hx.
  - inversion H; subst; contradiction.
  - destruct (py_hashable y) eqn:Hy; [|discriminate].
    bind_split H as s' Hs'. inversion H; subst; clear H.
    destruct Hx as [<-|Hx]; [assumption|].
    apply filter_In in Hx. eapply IH; [exact Hs' | apply Hx].
Qed.

Lemma py_set_hashable (v : json) (s : list json) :
  py_set v = Ok s -> forall x, In x s -> py_hashable x = true.
Proof.
  unfold py_set. intro H. bind_split H as l Hl.
  eapply set_of_list_hashable; eassumption.
Qed.

Lemma py_mem_self (x : json) (s : list json) :
  py_hashable x = true -> In x s -> py_mem x s = true.
Proof.
  intros Hx Hin. unfold py_mem. apply existsb_exists.
  exists x. split; [assumption | apply py_eq_refl_hashable; assumption].
Qed.

Lemma set_diff_subset (a b : list json) :
  (forall x, In x a -> py_mem x b = true) -> set_diff a b = [].
Proof.
  unfold set_diff. induction a as [|x a IH]; simpl; intro H; [reflexivity|].
  rewrite (H x) by (left; reflexivity). simpl. apply IH.
  intros y Hy. apply H. right; assumption.
Qed.





(* ================================================================== *)
(** ** Documents whose [paths] are dicts *)


Lemma shared_paths_In (bp cp : list (string * json)) (p : string) :
  In p (shared_paths bp cp) <-> dict_has p bp = true /\ dict_has p cp = true.
Proof.
  unfold shared_paths. rewrite sort_str_In.
  destruct (length (dict_keys bp) <? length (dict_keys cp))%nat;
    rewrite str_inter_In, !dict_keys_In; tauto.
Qed.


Lemma compare_documents_dicts (fuel : nat) (base current : json)
  (bp cp : list (string * json)) :
  paths_of base = Ok (JObj bp) ->
  paths_of current = Ok (JObj cp) ->
  compare_documents fuel base current
  = out_shared <-
      for_each (map JStr (shared_paths bp cp))
        (path_breaks fuel base current (JObj bp) (JObj cp)) ;;
    Ok (map (fun p => ("Removed path: " ++ p)%string) (removed_paths bp cp)
        ++ out_shared)%list.
Proof.
  intros Hb Hc. unfold compare_documents. rewrite Hb, Hc. simpl.
  rewrite !py_set_dict. simpl.
  rewrite set_diff_strs, py_sorted_strs. simpl.
  rewrite set_inter_strs, py_sorted_strs. simpl.
  rewrite map_map. reflexivity.
Qed.

(* ================================================================== *)
(** ** What the findings of a shared path look like *)



Lemma dict_find_filter (P : string * json -> bool) (k : string) (v : json) :
  forall m, dict_find k (filter P m) = Some v -> P (k, v) = true.
Proof.
  induction m as [|[k' v'] m IH]; simpl; [discriminate|].
  destruct (P (k', v')) eqn:HP; [|assumption].
  simpl. destruct (String.eqb_spec k k') as [->|N]; [|assumption].
  intro H. inversion H; subst. assumption.
Qed.

Lemma operations_keys (item : json) (ops : list (string * json)) (k : string) :
  operations item = Ok ops ->
  In k (dict_keys ops) ->
  mem_str (lower k) http_methods = true.
Proof.
  destruct item; try discriminate. simpl. intro H. inversion H; subst; clear H.
  rewrite dict_keys_In. unfold dict_has.
  destruct (dict_find k _) as [v|] eqn:E; [|discriminate].
  intros _. apply dict_find_filter in E. exact E.
Qed.






(* ================================================================== *)
(** ** Removed paths *)





(* ================================================================== *)
(** ** Method keys *)

Lemma dict_find_filter_key (P : string * json -> bool) (k : string) :
  (forall v, P (k, v) = true) ->
  forall m, dict_find k (filter P m) = dict_find k m.
Proof.
  intros HP. induction m as [|[k' v'] m IH]; simpl; [reflexivity|].
  destruct (String.eqb_spec k k') as [->|N].
  - rewrite HP. simpl. rewrite String.eqb_refl. reflexivity.
  - destruct (P (k', v')); simpl; [|assumption].
    rewrite (proj2 (String.eqb_neq k k') N). assumption.
Qed.




(* ================================================================== *)
(** ** Comparing a schema with itself *)

Lemma json_nested_ind (P : json -> Prop) :
  P JNull ->
  (forall b, P (JBool b)) ->
  (forall n, P (JNum n)) ->
  (forall s, P (JStr s)) ->
  (forall l, Forall P l -> P (JArr l)) ->
  (forall m, Forall (fun kv => P (snd kv)) m -> P (JObj m)) ->
  forall v, P v.
Proof.
  intros Hnull Hbool Hnum Hstr Harr Hobj.
  fix IH 1.
  intros [|b|n|s|l|m];
    [exact Hnull | apply Hbool | apply Hnum | apply Hstr | | ].
  - apply Harr. induction l as [|x l IHl]; constructor; [apply IH | exact IHl].
  - apply Hobj. induction m as [|kv m IHm]; constructor; [apply IH | exact IHm].
Qed.

Lemma dict_find_distinct (m : list (string * json)) (k : string) (v : json) :
  distinct (map fst m) = true -> In (k, v) m -> dict_find k m = Some v.
Proof.
  induction m as [|[k' v'] m IH]; simpl; [contradiction|].
  intros Hd [E|Hin].
  - inversion E; subst. rewrite String.eqb_refl. reflexivity.
  - apply andb_true_iff in Hd. destruct Hd as [Hk Hd].
    destruct (String.eqb_spec k k') as [->|N]; [|auto].
    apply negb_true_iff, mem_str_not_In in Hk. exfalso. apply Hk.
    apply (in_map fst) in Hin. exact Hin.
Qed.

Lemma py_eq_refl : forall v, well_formed v = true -> py_eq v v = true.
Proof.
  induction v as [|b|n|s|l IHl|m IHm] using json_nested_ind; simpl; intro Hwf.
  - reflexivity.
  - destruct b; reflexivity.
  - apply Z.eqb_refl.
  - apply String.eqb_refl.
  - induction IHl as [|x l Hx _ IH]; [reflexivity|].
    simpl in Hwf. apply andb_true_iff in Hwf. destruct Hwf as [Hwx Hwl].
    rewrite (Hx Hwx). simpl. apply IH. exact Hwl.
  - rewrite Nat.eqb_refl. simpl.
    apply andb_true_iff in Hwf. destruct Hwf as [Hd Hall].
    assert (Hgo : forall r, incl r m ->
              (fix go (m0 : list (string * json)) : bool :=
                 match m0 with
                 | [] => true
                 | (k, v) :: r0 =>
                     match dict_find k m with
                     | Some v' => py_eq v v'
                     | None => false
                     end && go r0
                 end) r = true).
    { induction r as [|[k v] r IHr]; intro Hincl; [reflexivity|].
      assert (Hin : In (k, v) m) by (apply Hincl; left; reflexivity).
      rewrite (dict_find_distinct m k v Hd Hin).
      rewrite Forall_forall in IHm. rewrite forallb_forall in Hall.
      pose proof (IHm (k, v) Hin (Hall (k, v) Hin)) as Hv. simpl in Hv.
      rewrite Hv. simpl.
      apply IHr. intros x Hx. apply Hincl. right; exact Hx. }
    apply Hgo, incl_refl.
Qed.

Lemma wf_dict_find (m : list (string * json)) (k : string) (v : json) :
  well_formed (JObj m) = true -> dict_find k m = Some v -> well_formed v = true.
Proof.
  simpl. intros H. apply andb_true_iff in H. destruct H as [_ H].
  induction m as [|[k' v'] m IH]; simpl in *; [discriminate|].
  apply andb_true_iff in H. destruct H as [Hv Hm].
  destruct (k =? k'); [intro E; inversion E; subst; assumption | auto].
Qed.

Lemma wf_dict_get (m : list (string * json)) (k : string) :
  well_formed (JObj m) = true -> well_formed (dict_get k m) = true.
Proof.
  intro H. unfold dict_get. destruct (dict_find k m) eqn:E; [|reflexivity].
  eapply wf_dict_find; eassumption.
Qed.

Lemma wf_py_or (v d : json) :
  well_formed v = true -> well_formed d = true -> well_formed (py_or v d) = true.
Proof. unfold py_or. destruct (py_truthy v); auto. Qed.

Lemma wf_walk :
  forall (tokens : list string) (node n : json),
    well_formed node = true -> walk node tokens = Some n -> well_formed n = true.
Proof.
  induction tokens as [|t r IH]; simpl; intros node n Hwf H.
  - inversion H; subst; assumption.
  - destruct node as [| | | | |m]; try discriminate.
    destruct (dict_find t m) as [n1|] eqn:E; [|discriminate].
    eapply IH; [|eassumption]. eapply wf_dict_find; eassumption.
Qed.

Lemma wf_resolve_ref (doc : json) :
  well_formed doc = true ->
  forall (fuel : nat) (schema : json) (seen : list string) (v : json),
    well_formed schema = true ->
    resolve_ref fuel schema doc seen = Ok v ->
    well_formed v = true.
Proof.
  intro Hdoc. induction fuel as [|fuel IH]; intros schema seen v Hwf H;
    [discriminate|].
  simpl in H. destruct schema as [| | | | |m]; try (inversion H; subst; assumption).
  destruct (dict_get "$ref" m) as [| | |r| |];
    try (inversion H; subst; assumption).
  destruct (negb (py_truthy (JStr r)) || negb (startswith r "#/"));
    [inversion H; subst; assumption|].
  destruct (mem_str r seen); [inversion H; subst; assumption|].
  destruct (walk doc (ref_tokens r)) as [node|] eqn:Hwalk;
    [|inversion H; subst; assumption].
  eapply IH; [|eassumption]. eapply wf_walk; [exact Hdoc | exact Hwalk].
Qed.

Lemma wf_nth_error (l : list json) (i : nat) (x : json) :
  forallb well_formed l = true -> nth_error l i = Some x -> well_formed x = true.
Proof.
  intros H E. apply nth_error_In in E. rewrite forallb_forall in H. auto.
Qed.

Lemma wf_py_getitem (v k x : json) :
  well_formed v = true -> py_getitem v k = Ok x -> well_formed x = true.
Proof.
  intros Hwf H. destruct v as [| | |s|l|m]; simpl in H; try discriminate.
  - destruct k; try discriminate;
      match type of H with
      | (if ?c then _ else _) = _ => destruct c; [discriminate|]
      end;
      match type of H with
      | match ?e with _ => _ end = _ => destruct e; [|discriminate]
      end; inversion H; reflexivity.
  - destruct k; try discriminate;
      match type of H with
      | (if ?c then _ else _) = _ => destruct c; [discriminate|]
      end;
      match type of H with
      | match ?e with _ => _ end = _ => destruct e eqn:E; [|discriminate]
      end; inversion H; subst; eapply wf_nth_error; eassumption.
  - destruct k; try discriminate.
    destruct (dict_find s m) eqn:E; [|discriminate].
    inversion H; subst. eapply wf_dict_find; eassumption.
Qed.

Lemma for_each_all_nil {A : Type} (body : A -> res (list string)) :
  forall (l : list A) (out : list string),
    (forall x o, In x l -> body x = Ok o -> o = []) ->
    for_each l body = Ok out -> out = [].
Proof.
  induction l as [|x l IH]; simpl; intros out Hall H.
  - inversion H; reflexivity.
  - bind_split H as o Ho. bind_split H as o' Ho'. inversion H; subst; clear H.
    rewrite (Hall x o (or_introl eq_refl) Ho).
    rewrite (IH o'); [reflexivity| |exact Ho'].
    intros y oy Hy. apply Hall. right; exact Hy.
Qed.

Lemma set_diff_self (v : json) (s : list json) :
  py_set v = Ok s -> set_diff s s = [].
Proof.
  intro H. apply set_diff_subset. intros x Hx.
  apply py_mem_self; [|exact Hx]. eapply py_set_hashable; eassumption.
Qed.

Lemma enum_breaks_same (bm : list (string * json)) (ctx : string)
  (out : list string) :
  enum_breaks bm bm ctx = Ok out -> out = [].
Proof.
  unfold enum_breaks. intro H.
  destruct (dict_get "enum" bm) as [| | | |l|] eqn:E;
    try (inversion H; reflexivity).
  bind_split H as sb Hsb. bind_split H as sc Hsc. rewrite Hsb in Hsc.
  inversion Hsc; subst sc. rewrite (set_diff_self _ _ Hsb) in H.
  inversion H; reflexivity.
Qed.

Lemma required_breaks_same (bm : list (string * json)) (ctx : string)
  (out : list string) :
  required_breaks bm bm ctx = Ok out -> out = [].
Proof.
  unfold required_breaks. intro H.
  bind_split H as sb Hsb. bind_split H as sc Hsc. rewrite Hsb in Hsc.
  inversion Hsc; subst sc. rewrite (set_diff_self _ _ Hsb) in H.
  inversion H; reflexivity.
Qed.

Lemma same_schema_nil :
  forall (fuel : nat) (schema doc : json) (ctx : string) (out : list string),
    well_formed schema = true ->
    well_formed doc = true ->
    schema_breaks fuel schema schema doc doc ctx = Ok out ->
    out = [].
Proof.
  induction fuel as [|fuel IH]; intros schema doc ctx out Hws Hwd H;
    [discriminate|].
  pose proof H as H0. simpl in H0.
  bind_split H0 as b Hb. bind_split H0 as c Hc. clear H0.
  assert (c = b) by congruence. subst c.
  assert (Hwb : well_formed b = true).
  { eapply (wf_resolve_ref doc Hwd); [|exact Hb].
    apply wf_py_or; [exact Hws | reflexivity]. }
  destruct b as [| | | | |bm];
    try (rewrite (schema_breaks_not_dict _ _ _ _ _ _ _ _ Hb Hc) in H;
         [inversion H; reflexivity | intros ? ? A _; discriminate A]).
  rewrite (schema_breaks_resolved _ _ _ _ _ _ _ _ Hb Hc) in H.
  assert (Ht : type_changed bm bm = false).
  { unfold type_changed. rewrite py_eq_refl by (apply wf_dict_get; exact Hwb).
    simpl. apply andb_false_r. }
  rewrite Ht in H. unfold structure_breaks in H.
  bind_split H as o_enum Henum. bind_split H as o_obj Hobj.
  bind_split H as o_arr Harr. inversion H; subst; clear H.
  rewrite (enum_breaks_same _ _ _ Henum). simpl.
  assert (o_arr = []) as ->.
  { destruct (py_eq (dict_get "type" bm) (JStr "array")
              && py_eq (dict_get "type" bm) (JStr "array"));
      [|inversion Harr; reflexivity].
    eapply IH; [| |exact Harr]; try exact Hwd.
    apply wf_py_or; [apply wf_dict_get; exact Hwb | reflexivity]. }
  rewrite app_nil_r.
  destruct (py_eq (dict_get "type" bm) (JStr "object") || dict_has "properties" bm);
    [|inversion Hobj; reflexivity].
  bind_split Hobj as o_req Hreq. bind_split Hobj as o_props Hprops.
  inversion Hobj; subst; clear Hobj.
  rewrite (required_breaks_same _ _ _ Hreq). simpl.
  unfold properties_breaks in Hprops.
  bind_split Hprops as sb Hsb. bind_split Hprops as sc Hsc.
  rewrite Hsb in Hsc. inversion Hsc; subst sc.
  rewrite (set_diff_self _ _ Hsb) in Hprops. simpl in Hprops.
  bind_split Hprops as shared Hshared. bind_split Hprops as o_nested Hnested.
  inversion Hprops; subst; clear Hprops. simpl.
  eapply for_each_all_nil; [|exact Hnested].
  intros prop o _ Hbody.
  bind_split Hbody as bp Hbp. bind_split Hbody as cp Hcp.
  assert (cp = bp) by congruence. subst cp.
  eapply IH; [| |exact Hbody]; try exact Hwd.
  eapply wf_py_getitem; [|exact Hbp].
  apply wf_py_or; [apply wf_dict_get; exact Hwb | reflexivity].
Qed.

(** Idempotence, as far as the code has it, for schemas and documents that
    hold no floating-point number: whenever the comparison of a schema with
    itself, in one well-formed document, returns, it returns no finding.
    (On the self-referential schema of [Cyclic] it does not return; and a
    schema whose [type] is [NaN], which is not equal to itself, is outside
    [json].) *)
Theorem same_schema_no_findings :
  forall (fuel : nat) (schema doc : json) (ctx : string) (out : list string),
    well_formed schema = true ->
    well_formed doc = true ->
    schema_breaks fuel schema schema doc doc ctx = Ok out ->
    out = [].
Proof. exact same_schema_nil. Qed.

Lemma same_schema_no_findings_witness :
  well_formed pet_base = true /\
  well_formed (JObj []) = true /\
  schema_breaks 3 pet_base pet_base (JObj []) (JObj []) "Pet" = Ok [] /\
  @nil string = [].
Proof.
  split; [reflexivity|]. split; [reflexivity|]. split; [reflexivity|].
  exact (same_schema_no_findings 3 pet_base (JObj []) "Pet" []
           eq_refl eq_refl eq_refl).
Defined.

(** *** Schemas without pointers *)

Lemma resolve_plain (n : nat) (m : list (string * json)) (doc : json)
  (seen : list string) :
  dict_find "$ref" m = None ->
  resolve_ref (S n) (JObj m) doc seen = Ok (JObj m).
Proof.
  intro H. simpl. unfold dict_get. rewrite H. reflexivity.
Qed.

Lemma py_or_dict (m : list (string * json)) :
  py_or (JObj m) (JObj []) = JObj m.
Proof. destruct m; reflexivity. Qed.

Lemma depth_dict_find (m : list (string * json)) (k : string) (v : json) :
  dict_find k m = Some v -> depth v < depth (JObj m).
Proof.
  simpl. induction m as [|[k' v'] m IH]; simpl; [discriminate|].
  destruct (k =? k').
  - intro H. inversion H; subst. lia.
  - intro H. specialize (IH H). lia.
Qed.

Lemma depth_dict_get (m : list (string * json)) (k : string) :
  dict_get k m <> JNull -> depth (dict_get k m) < depth (JObj m).
Proof.
  unfold dict_get. destruct (dict_find k m) eqn:E; [|congruence].
  intros _. eapply depth_dict_find; eassumption.
Qed.

Lemma set_of_list_ok (l : list json) :
  forallb py_hashable l = true -> exists s, set_of_list l = Ok s.
Proof.
  induction l as [|x l IH]; simpl; [eexists; reflexivity|].
  intro H. apply andb_true_iff in H. destruct H as [Hx Hl].
  rewrite Hx. destruct (IH Hl) as (s & ->). eexists; reflexivity.
Qed.

Lemma for_each_ok {A : Type} (body : A -> res (list string)) :
  forall l : list A,
    (forall x, In x l -> exists o, body x = Ok o) ->
    exists out, for_each l body = Ok out.
Proof.
  induction l as [|x l IH]; simpl; intro H; [eexists; reflexivity|].
  destruct (H x (or_introl eq_refl)) as (o & ->).
  destruct IH as (o' & ->); [intros y Hy; apply H; right; exact Hy|].
  eexists; reflexivity.
Qed.

Lemma enum_breaks_returns (m : list (string * json)) (ctx : string) :
  (forall l, dict_get "enum" m = JArr l -> forallb py_hashable l = true) ->
  exists o, enum_breaks m m ctx = Ok o.
Proof.
  intro H. unfold enum_breaks.
  destruct (dict_get "enum" m) as [| | | |l|] eqn:E; try (eexists; reflexivity).
  destruct (set_of_list_ok l (H l eq_refl)) as (s & Hs).
  unfold py_set. simpl. rewrite Hs. simpl.
  rewrite (set_diff_self (JArr l) s) by (unfold py_set; simpl; exact Hs).
  eexists; reflexivity.
Qed.

Lemma required_breaks_returns (m : list (string * json)) (ctx : string) :
  (dict_get "required" m = JNull
   \/ exists names, dict_get "required" m = JArr (map JStr names)) ->
  exists o, required_breaks m m ctx = Ok o.
Proof.
  intro H. unfold required_breaks.
  assert (Hs : exists s, py_set (py_or (dict_get "required" m) (JArr [])) = Ok s).
  { destruct H as [->|(names & ->)]; [eexists; reflexivity|].
    assert (Hl : exists l, py_or (JArr (map JStr names)) (JArr [])
                           = JArr (map JStr l))
      by (destruct names; [exists [] | eexists (_ :: _)]; reflexivity).
    destruct Hl as (l & ->). unfold py_set. simpl.
    apply set_of_list_ok, forallb_forall.
    intros x Hx. apply in_map_iff in Hx. destruct Hx as (n & <- & _). reflexivity. }
  destruct Hs as (s & Hs). rewrite Hs. simpl.
  rewrite (set_diff_self _ s Hs). eexists; reflexivity.
Qed.

Lemma empty_schema_same (n : nat) (doc : json) (ctx : string) :
  schema_breaks (S (S n)) (JObj []) (JObj []) doc doc ctx = Ok [].
Proof. reflexivity. Qed.

(** A schema without pointers can always be compared with itself: a depth
    of two more than its nesting is enough. *)
Lemma plain_schema_returns (doc : json) :
  forall (fuel : nat) (schema : json) (ctx : string),
    plain_schema schema ->
    depth schema + 1 < fuel ->
    exists out, schema_breaks fuel schema schema doc doc ctx = Ok out.
Proof.
  induction fuel as [|fuel IH]; intros schema ctx Hp Hd; [lia|].
  destruct Hp as [m Href Henum Hreq Hprops Hitems].
  assert (Hdm : 1 <= depth (JObj m)) by (simpl; lia).
  destruct fuel as [|f]; [lia|].
  assert (Hr : resolve_ref (S f) (py_or (JObj m) (JObj [])) doc [] = Ok (JObj m))
    by (rewrite py_or_dict; apply resolve_plain; exact Href).
  rewrite (schema_breaks_resolved _ _ _ _ _ _ _ _ Hr Hr).
  destruct (type_changed m m); [eexists; reflexivity|].
  unfold structure_breaks.
  destruct (enum_breaks_returns m ctx Henum) as (o_enum & ->). cbn [bind].
  assert (Hobj : exists o,
            (out_required <- required_breaks m m ctx ;;
             out_props <- properties_breaks (S f) m m doc doc ctx ;;
             Ok (out_required ++ out_props)%list) = Ok o).
  { destruct (required_breaks_returns m ctx Hreq) as (o_req & ->). simpl.
    assert (Hps : exists ps,
              py_or (dict_get "properties" m) (JObj []) = JObj ps /\
              forall k v, dict_find k ps = Some v ->
                plain_schema v /\ depth v + 2 <= depth (JObj m)).
    { destruct Hprops as [E|(ps & E & Hall)].
      - rewrite E. exists []. split; [reflexivity|]. intros k v H; discriminate H.
      - rewrite E, py_or_dict. exists ps. split; [reflexivity|].
        intros k v Hk. split; [eapply Hall; exact Hk|].
        pose proof (depth_dict_find ps k v Hk) as H1.
        assert (H2 : depth (dict_get "properties" m) < depth (JObj m))
          by (apply depth_dict_get; rewrite E; discriminate).
        rewrite E in H2. lia. }
    destruct Hps as (ps & Eps & Hall).
    unfold properties_breaks. rewrite Eps, py_set_dict. simpl.
    rewrite (set_diff_self (JObj ps) _ (py_set_dict ps)). simpl.
    rewrite set_inter_strs, py_sorted_strs. simpl.
    match goal with
    | |- context [for_each ?l ?body] =>
        destruct (for_each_ok body l) as (o_nested & ->)
    end; [|eexists; reflexivity].
    intros x Hx. apply in_map_iff in Hx. destruct Hx as (k & <- & Hk).
    rewrite sort_str_In in Hk.
    assert (Hk' : In k (dict_keys ps)).
    { repeat match type of Hk with
             | context [if ?c then _ else _] => destruct c
             end;
        apply str_inter_In in Hk; tauto. }
    apply dict_keys_In in Hk'. unfold dict_has in Hk'. simpl.
    destruct (dict_find k ps) as [v|] eqn:Ev; [|discriminate]. simpl.
    destruct (Hall k v Ev) as [Hpv Hdv].
    apply IH; [exact Hpv | lia]. }
  assert (Harr : exists o,
            schema_breaks (S f) (py_or (dict_get "items" m) (JObj []))
              (py_or (dict_get "items" m) (JObj [])) doc doc (ctx ++ "[]") = Ok o).
  { destruct Hitems as [E|Hi].
    - rewrite E. change (py_or JNull (JObj [])) with (JObj []).
      destruct f as [|f']; [lia|]. eexists. apply empty_schema_same.
    - assert (Em : exists mi, dict_get "items" m = JObj mi)
        by (inversion Hi; eexists; reflexivity).
      destruct Em as (mi & Emi).
      pose proof (depth_dict_get m "items") as Hlt.
      rewrite Emi in *. rewrite py_or_dict.
      apply IH; [exact Hi|].
      assert (depth (JObj mi) < depth (JObj m)) by (apply Hlt; discriminate).
      lia. }
  destruct Harr as (o_arr & Harr).
  destruct (py_eq (dict_get "type" m) (JStr "object") || dict_has "properties" m).
  - destruct Hobj as (o_obj & ->). cbn [bind].
    destruct (py_eq (dict_get "type" m) (JStr "array")
              && py_eq (dict_get "type" m) (JStr "array"));
      [rewrite Harr|]; eexists; reflexivity.
  - cbn [bind].
    destruct (py_eq (dict_get "type" m) (JStr "array")
              && py_eq (dict_get "type" m) (JStr "array"));
      [rewrite Harr|]; eexists; reflexivity.
Qed.

(** Idempotence where the code has it in full: a well-formed schema without
    pointers, compared with itself, gives the empty list as soon as the
    depth allowed exceeds its nesting by two. *)
Theorem plain_schema_idempotent :
  forall (fuel : nat) (schema doc : json) (ctx : string),
    plain_schema schema ->
    well_formed schema = true ->
    well_formed doc = true ->
    depth schema + 1 < fuel ->
    schema_breaks fuel schema schema doc doc ctx = Ok [].
Proof.
  intros fuel schema doc ctx Hp Hws Hwd Hd.
  destruct (plain_schema_returns doc fuel schema ctx Hp Hd) as (out & H).
  rewrite H. f_equal.
  exact (same_schema_nil fuel schema doc ctx out Hws Hwd H).
Qed.

Lemma pet_base_plain : plain_schema pet_base.
Proof.
  constructor.
  - reflexivity.
  - intros l H. discriminate H.
  - right. exists ["id"]. reflexivity.
  - right. eexists. split; [reflexivity|].
    intros k v H. simpl in H.
    destruct (k =? "id"); [|discriminate H]. inversion H; subst.
    constructor.
    + reflexivity.
    + intros l E. discriminate E.
    + left; reflexivity.
    + left; reflexivity.
    + left; reflexivity.
  - left; reflexivity.
Qed.

Lemma pet_base_idempotent :
  plain_schema pet_base /\
  depth pet_base + 1 < 5 /\
  schema_breaks 5 pet_base pet_base Cyclic.document Cyclic.document "Pet" = Ok [].
Proof.
  split; [exact pet_base_plain|]. split; [simpl; lia|].
  apply plain_schema_idempotent;
    [exact pet_base_plain | reflexivity | reflexivity | simpl; lia].
Defined.

(* ================================================================== *)
(** * Further properties *)

(** ** The resolver *)

Lemma resolve_ref_terminates_witness :
  length (all_refs pointer_loop) + 1 < 4 /\
  exists v, resolve_ref 4 (JObj [("$ref", JStr "#/a")]) pointer_loop [] = Ok v.
Proof.
  split; [simpl; lia|].
  apply resolve_ref_terminates. simpl; lia.
Defined.

(** What [resolve_ref] returns is the node it was given or a node of the
    document, reached from its root key by key: resolution never leaves
    the document. *)
Theorem resolve_ref_stays_in_document :
  forall (fuel : nat) (schema doc : json) (seen : list string) (v : json),
    resolve_ref fuel schema doc seen = Ok v ->
    v = schema \/ exists tokens, walk doc tokens = Some v.
Proof.
  induction fuel as [|fuel IH]; intros schema doc seen v H; [discriminate|].
  simpl in H.
  destruct schema as [| | | | |m]; try (inversion H; left; reflexivity).
  destruct (dict_get "$ref" m) as [| | |r| |];
    try (inversion H; left; reflexivity).
  destruct (negb (py_truthy (JStr r)) || negb (startswith r "#/"));
    [inversion H; left; reflexivity|].
  destruct (mem_str r seen); [inversion H; left; reflexivity|].
  destruct (walk doc (ref_tokens r)) as [node|] eqn:Hwalk;
    [|inversion H; left; reflexivity].
  right. destruct (IH _ _ _ _ H) as [->|Hv]; [|exact Hv].
  exists (ref_tokens r). exact Hwalk.
Qed.

Lemma resolve_ref_stays_in_document_witness :
  resolve_ref 4 (JObj [("$ref", JStr "#/a")]) pointer_loop []
  = Ok (JObj [("$ref", JStr "#/a")]) /\
  (JObj [("$ref", JStr "#/a")] = JObj [("$ref", JStr "#/a")]
   \/ exists tokens,
        walk pointer_loop tokens = Some (JObj [("$ref", JStr "#/a")])).
Proof.
  split; [reflexivity|].
  exact (resolve_ref_stays_in_document 4 (JObj [("$ref", JStr "#/a")])
           pointer_loop [] (JObj [("$ref", JStr "#/a")]) eq_refl).
Defined.

Lemma concat_cons (sep x : string) (l : list string) :
  l <> [] -> String.concat sep (x :: l) = x ++ sep ++ String.concat sep l.
Proof. destruct l; [congruence | reflexivity]. Qed.

Lemma split_on_nonempty (sep : ascii) (s : string) : split_on sep s <> [].
Proof.
  destruct s as [|c r]; simpl; [discriminate|].
  destruct (Ascii.eqb c sep); [discriminate|].
  destruct (split_on sep r); discriminate.
Qed.

Lemma split_on_join (sep : ascii) (s : string) :
  String.concat (String sep EmptyString) (split_on sep s) = s.
Proof.
  induction s as [|c r IH]; [reflexivity|].
  simpl. destruct (Ascii.eqb_spec c sep) as [->|N].
  - rewrite concat_cons by apply split_on_nonempty. simpl. rewrite IH. reflexivity.
  - pose proof (split_on_nonempty sep r) as Hne.
    destruct (split_on sep r) as [|t ts]; [congruence|].
    destruct ts as [|u ts]; simpl in *; rewrite <- IH; reflexivity.
Qed.

Lemma split_on_no_sep (sep : ascii) (s : string) :
  Forall (fun t => contains_ascii sep t = false) (split_on sep s).
Proof.
  induction s as [|c r IH]; simpl; [repeat constructor|].
  destruct (Ascii.eqb_spec c sep) as [->|N].
  - constructor; [reflexivity | exact IH].
  - pose proof (split_on_nonempty sep r) as Hne.
    destruct (split_on sep r) as [|t ts]; [congruence|].
    inversion IH as [|? ? Ht Hts]; subst. constructor; [|exact Hts].
    unfold contains_ascii in *. simpl.
    rewrite Ht, orb_false_r. apply Ascii.eqb_neq. congruence.
Qed.

(** The tokens of a pointer are what stands between its slashes, taken as
    they are: there is at least one, none holds a slash, and joined with
    slashes after [#/] they give the pointer back. *)
Theorem ref_tokens_join :
  forall r : string,
    startswith r "#/" = true ->
    ref_tokens r <> [] /\
    Forall (fun t => contains_ascii "/"%char t = false) (ref_tokens r) /\
    "#/" ++ String.concat "/" (ref_tokens r) = r.
Proof.
  intros r H. unfold ref_tokens.
  split; [apply split_on_nonempty|]. split; [apply split_on_no_sep|].
  rewrite split_on_join.
  unfold startswith in H. apply String.prefix_correct in H.
  destruct r as [|a [|b r]]; simpl in H; try discriminate.
  injection H as -> -> _. reflexivity.
Qed.

Lemma ref_tokens_join_witness :
  startswith "#/components/schemas/Node" "#/" = true /\
  ref_tokens "#/components/schemas/Node" <> [] /\
  Forall (fun t => contains_ascii "/"%char t = false)
    (ref_tokens "#/components/schemas/Node") /\
  "#/" ++ String.concat "/" (ref_tokens "#/components/schemas/Node")
  = "#/components/schemas/Node".
Proof.
  split; [reflexivity|].
  exact (ref_tokens_join "#/components/schemas/Node" eq_refl).
Defined.

(** Following a path of tokens is following its first part and then, from
    the node reached, the rest. *)
Theorem walk_app :
  forall (t1 t2 : list string) (node : json),
    walk node (t1 ++ t2)%list
    = match walk node t1 with
      | Some n => walk n t2
      | None => None
      end.
Proof.
  induction t1 as [|t t1 IH]; intros t2 node; [reflexivity|].
  simpl. destruct node as [| | | | |m]; try reflexivity.
  destruct (dict_find t m); [apply IH | reflexivity].
Qed.

(* ================================================================== *)
(** ** Enumerations and required names given as strings *)

Lemma filter_strs (x : string) (u : list string) :
  filter (fun y => negb (py_eq y (JStr x))) (map JStr u)
  = map JStr (filter (fun k => negb (k =? x)) u).
Proof.
  induction u as [|k u IH]; simpl; [reflexivity|].
  destruct (k =? x); simpl; rewrite IH; reflexivity.
Qed.

(** [set] of a list of strings: the strings of the list, each once. *)
Lemma set_of_strs (l : list string) :
  exists u, set_of_list (map JStr l) = Ok (map JStr u)
            /\ NoDup u /\ forall x, In x u <-> In x l.
Proof.
  induction l as [|x l (u & Hu & Hnd & Hin)]; simpl.
  - exists []. repeat split; auto; constructor.
  - rewrite Hu. simpl. rewrite filter_strs.
    exists (x :: filter (fun k => negb (k =? x)) u). split; [reflexivity|]. split.
    + constructor; [|apply NoDup_filter; exact Hnd].
      rewrite filter_In, String.eqb_refl. intros [_ H]; discriminate H.
    + intro y. simpl. rewrite filter_In, <- Hin.
      destruct (String.eqb_spec y x) as [->|N]; simpl; [tauto|].
      split; [intros [E|[H _]]; [congruence | auto] | intros [E|H]; [congruence | auto]].
Qed.

Lemma str_diff_nil (a b : list string) : str_diff a b = [] <-> incl a b.
Proof.
  split.
  - intros H x Hx. destruct (mem_str x b) eqn:E; [apply mem_str_In; exact E|].
    assert (Hd : In x (str_diff a b)) by (apply str_diff_In; split;
      [exact Hx | apply mem_str_not_In; exact E]).
    rewrite H in Hd. contradiction.
  - intro H. destruct (str_diff a b) as [|x d] eqn:E; [reflexivity|].
    assert (Hd : In x (str_diff a b)) by (rewrite E; left; reflexivity).
    apply str_diff_In in Hd. destruct Hd as [Ha Hb]. exfalso. auto.
Qed.

Lemma sort_str_nil (l : list string) : sort_str l = [] <-> l = [].
Proof.
  split; [|intros ->; reflexivity].
  intro H. apply Permutation_nil. rewrite <- H. unfold sort_str.
  apply isort_perm.
Qed.

Lemma nonempty_false {A : Type} (l : list A) : nonempty l = false <-> l = [].
Proof. destruct l; simpl; split; congruence. Qed.

(** The difference of two sets of strings, sorted, as lines 41, 48 and 55
    compute it. *)
Lemma removed_strs (vb vc : json) (lb lc : list string) (label ctx : string) :
  vb = JArr (map JStr lb) ->
  vc = JArr (map JStr lc) ->
  exists o,
    (sb <- py_set vb ;; sc <- py_set vc ;;
     removed <- py_sorted (set_diff sb sc) ;;
     Ok (if nonempty removed
         then [ctx ++ label ++ py_str (JArr removed)]
         else [])) = Ok o
    /\ (o = [] <-> incl lb lc)
    /\ length o <= 1.
Proof.
  intros -> ->. unfold py_set. simpl.
  destruct (set_of_strs lb) as (ub & -> & _ & Hub).
  destruct (set_of_strs lc) as (uc & -> & _ & Huc). simpl.
  rewrite set_diff_strs, py_sorted_strs. simpl.
  eexists. split; [reflexivity|].
  assert (Hiff : str_diff ub uc = [] <-> incl lb lc).
  { rewrite str_diff_nil. unfold incl. split; intros H x Hx.
    - apply Huc, H, Hub, Hx.
    - apply Huc, H, Hub, Hx. }
  destruct (sort_str (str_diff ub uc)) as [|x d] eqn:E; simpl.
  - apply (proj1 (sort_str_nil _)) in E. split; [|lia]. split; [intros _|reflexivity].
    apply Hiff, E.
  - split; [|lia]. split; [discriminate|].
    intro H. apply Hiff in H. rewrite H in E. discriminate E.
Qed.

(** Enum narrowing, for enumerations of strings: the comparison of lines
    38-43 returns, with no finding exactly when every value of the base
    enumeration is a value of the current one, and with one finding
    otherwise. *)
Theorem enum_narrowing_iff :
  forall (bm cm : list (string * json)) (ctx : string) (be ce : list string),
    dict_get "enum" bm = JArr (map JStr be) ->
    dict_get "enum" cm = JArr (map JStr ce) ->
    exists o, enum_breaks bm cm ctx = Ok o
              /\ (o = [] <-> incl be ce)
              /\ length o <= 1.
Proof.
  intros bm cm ctx be ce Hb Hc. unfold enum_breaks. rewrite Hb, Hc.
  destruct (removed_strs (JArr (map JStr be)) (JArr (map JStr ce)) be ce
              ": enum values removed: " ctx eq_refl eq_refl) as (o & Ho & H).
  exists o. split; [exact Ho | exact H].
Qed.

Lemma enum_narrowing_iff_witness :
  dict_get "enum" [("enum", JArr [JStr "a"; JStr "b"; JStr "c"])]
  = JArr (map JStr ["a"; "b"; "c"]) /\
  dict_get "enum" [("enum", JArr [JStr "a"; JStr "c"])]
  = JArr (map JStr ["a"; "c"]) /\
  enum_breaks [("enum", JArr [JStr "a"; JStr "b"; JStr "c"])]
    [("enum", JArr [JStr "a"; JStr "c"])] "ctx"
  = Ok ["ctx: enum values removed: ['b']"] /\
  exists o, enum_breaks [("enum", JArr [JStr "a"; JStr "b"; JStr "c"])]
              [("enum", JArr [JStr "a"; JStr "c"])] "ctx" = Ok o
            /\ (o = [] <-> incl ["a"; "b"; "c"] ["a"; "c"])
            /\ length o <= 1.
Proof.
  split; [reflexivity|]. split; [reflexivity|]. split; [reflexivity|].
  exact (enum_narrowing_iff [("enum", JArr [JStr "a"; JStr "b"; JStr "c"])]
           [("enum", JArr [JStr "a"; JStr "c"])] "ctx"
           ["a"; "b"; "c"] ["a"; "c"] eq_refl eq_refl).
Defined.

Lemma py_or_strs (l : list string) :
  py_or (JArr (map JStr l)) (JArr []) = JArr (map JStr l).
Proof. destruct l; reflexivity. Qed.

(** Required names, for lists of names (an absent [required] is the empty
    list): the comparison of lines 46-50 returns, with no finding exactly
    when every name the base requires is required by the current schema. *)
Theorem required_narrowing_iff :
  forall (bm cm : list (string * json)) (ctx : string) (rb rc : list string),
    py_or (dict_get "required" bm) (JArr []) = JArr (map JStr rb) ->
    py_or (dict_get "required" cm) (JArr []) = JArr (map JStr rc) ->
    exists o, required_breaks bm cm ctx = Ok o
              /\ (o = [] <-> incl rb rc)
              /\ length o <= 1.
Proof.
  intros bm cm ctx rb rc Hb Hc. unfold required_breaks.
  destruct (removed_strs _ _ rb rc ": required fields removed: " ctx Hb Hc)
    as (o & Ho & H).
  exists o. split; [exact Ho | exact H].
Qed.

Lemma required_narrowing_iff_witness :
  py_or (dict_get "required" [("required", JArr [JStr "id"; JStr "name"])])
    (JArr []) = JArr (map JStr ["id"; "name"]) /\
  py_or (dict_get "required" [("type", JStr "object")]) (JArr [])
  = JArr (map JStr []) /\
  required_breaks [("required", JArr [JStr "id"; JStr "name"])]
    [("type", JStr "object")] "ctx"
  = Ok ["ctx: required fields removed: ['id', 'name']"] /\
  exists o, required_breaks [("required", JArr [JStr "id"; JStr "name"])]
              [("type", JStr "object")] "ctx" = Ok o
            /\ (o = [] <-> incl ["id"; "name"] [])
            /\ length o <= 1.
Proof.
  split; [reflexivity|]. split; [reflexivity|]. split; [reflexivity|].
  exact (required_narrowing_iff [("required", JArr [JStr "id"; JStr "name"])]
           [("type", JStr "object")] "ctx" ["id"; "name"] [] eq_refl eq_refl).
Defined.

(* ================================================================== *)
(** ** Object schemas with [properties] dicts *)








(** Every finding of a comparison starts with the context the comparison
    was called with. *)
Theorem findings_start_with_context :
  forall (fuel : nat) (base_schema curr_schema base_doc curr_doc : json)
         (ctx : string) (out : list string) (f : string),
    schema_breaks fuel base_schema curr_schema base_doc curr_doc ctx = Ok out ->
    In f out ->
    begins ctx f.
Proof.
  intros fuel b c bd cd ctx out f H Hf.
  exact (schema_breaks_context fuel b c bd cd ctx out H f Hf).
Qed.

Lemma findings_start_with_context_witness :
  schema_breaks 3 pet_curr pet_base JNull JNull "Pet"
  = Ok ["Pet: response properties removed: ['name']";
        "Pet.id: schema type changed from integer to string"] /\
  begins "Pet" "Pet.id: schema type changed from integer to string".
Proof.
  split; [reflexivity|].
  refine (findings_start_with_context 3 pet_curr pet_base JNull JNull "Pet"
            ["Pet: response properties removed: ['name']";
             "Pet.id: schema type changed from integer to string"]
            "Pet.id: schema type changed from integer to string" eq_refl _).
  right. left. reflexivity.
Defined.

(* ================================================================== *)
(** ** Required parameters *)

Lemma py_eq_sym_hashable (a b : json) :
  py_hashable a = true -> py_hashable b = true -> py_eq a b = py_eq b a.
Proof.
  destruct a, b; simpl; intros; try discriminate; try reflexivity.
  - apply eq_true_iff_eq. rewrite !Bool.eqb_true_iff. split; congruence.
  - apply Z.eqb_sym.
  - apply Z.eqb_sym.
  - apply Z.eqb_sym.
  - apply String.eqb_sym.
Qed.

Lemma py_eq_trans_hashable (a b c : json) :
  py_hashable a = true -> py_hashable b = true -> py_hashable c = true ->
  py_eq a b = true -> py_eq b c = true -> py_eq a c = true.
Proof.
  destruct a, b, c; simpl; intros; try discriminate; try reflexivity;
    rewrite ?Z.eqb_eq, ?String.eqb_eq, ?Bool.eqb_true_iff in *;
    subst; try reflexivity; try congruence;
    repeat match goal with x : bool |- _ => destruct x end;
    simpl in *; congruence.
Qed.

Lemma key_eq_refl (k : param_key) : key_hashable k = true -> key_eq k k = true.
Proof.
  unfold key_hashable, key_eq. intro H. apply andb_true_iff in H.
  destruct H as [H1 H2]. rewrite !py_eq_refl_hashable by assumption. reflexivity.
Qed.

Lemma key_eq_trans (a b c : param_key) :
  key_hashable a = true -> key_hashable b = true -> key_hashable c = true ->
  key_eq a b = true -> key_eq b c = true -> key_eq a c = true.
Proof.
  unfold key_hashable, key_eq. intros Ha Hb Hc Hab Hbc.
  apply andb_true_iff in Ha, Hb, Hc, Hab, Hbc.
  destruct Ha as [A1 A2], Hb as [B1 B2], Hc as [C1 C2], Hab as [E1 E2],
    Hbc as [F1 F2].
  apply andb_true_iff. split.
  - exact (py_eq_trans_hashable _ _ _ A1 B1 C1 E1 F1).
  - exact (py_eq_trans_hashable _ _ _ A2 B2 C2 E2 F2).
Qed.

(** What the loop of lines 87-89 collects. *)
Lemma required_keys_members :
  forall (params : list json) (s : list param_key),
    required_keys params = Ok s ->
    (forall key, In key s ->
       key_hashable key = true /\
       exists pm, In (JObj pm) params
                  /\ dict_get "required" pm = JBool true
                  /\ key = (dict_get "in" pm, dict_get "name" pm)) /\
    (forall pm, In (JObj pm) params ->
       dict_get "required" pm = JBool true ->
       key_mem (dict_get "in" pm, dict_get "name" pm) s = true).
Proof.
  induction params as [|p params IH]; simpl; intros s H.
  - inversion H; subst. split; [intros key []|intros pm []].
  - assert (Hskip : required_keys params = Ok s ->
              (forall pm, p = JObj pm -> dict_get "required" pm <> JBool true) ->
              (forall key, In key s ->
                 key_hashable key = true /\
                 exists pm, (p = JObj pm \/ In (JObj pm) params)
                            /\ dict_get "required" pm = JBool true
                            /\ key = (dict_get "in" pm, dict_get "name" pm)) /\
              (forall pm, p = JObj pm \/ In (JObj pm) params ->
                 dict_get "required" pm = JBool true ->
                 key_mem (dict_get "in" pm, dict_get "name" pm) s = true)).
    { intros Hs Hp. destruct (IH s Hs) as [H1 H2]. split.
      - intros key Hk. destruct (H1 key Hk) as (Hh & pm & Hin & Hr & E).
        split; [exact Hh|]. exists pm. auto.
      - intros pm [E|Hin] Hr; [exfalso; eapply Hp; eassumption | auto]. }
    destruct p as [| | | | |pm0];
      try (apply Hskip; [exact H | intros ? E; discriminate E]).
    destruct (dict_get "required" pm0) as [|[|]| | | |] eqn:Hreq;
      try (apply Hskip; [exact H | intros ? E; inversion E; subst; congruence]).
    set (key0 := (dict_get "in" pm0, dict_get "name" pm0)) in *.
    match type of H with
    | context [if ?c then _ else _] => destruct c eqn:Hh0
    end; [|discriminate].
    change (key_hashable key0 = true) in Hh0.
    bind_split H as s' Hs'. inversion H; subst; clear H.
    destruct (IH s' Hs') as [H1 H2]. split.
    + intros key [<-|Hk].
      * split; [exact Hh0|]. exists pm0. auto.
      * apply filter_In in Hk. destruct Hk as [Hk _].
        destruct (H1 key Hk) as (Hh & pm & Hin & Hr & E).
        split; [exact Hh|]. exists pm. auto.
    + intros pm [E|Hin] Hr.
      * inversion E; subst. unfold key_mem. simpl. fold key0.
        rewrite key_eq_refl by exact Hh0. reflexivity.
      * specialize (H2 pm Hin Hr). unfold key_mem in *. simpl.
        apply existsb_exists in H2. destruct H2 as (q & Hq & Heq).
        destruct (key_eq (dict_get "in" pm, dict_get "name" pm) key0) eqn:E0;
          [reflexivity|]. simpl.
        apply existsb_exists. exists q. split; [|exact Heq].
        apply filter_In. split; [exact Hq|].
        destruct (key_eq q key0) eqn:E1; [|reflexivity]. exfalso.
        assert (Hhq : key_hashable q = true) by (apply H1; exact Hq).
        assert (Hhk : key_hashable (dict_get "in" pm, dict_get "name" pm) = true).
        { unfold key_hashable, key_eq in *. simpl in *.
          apply andb_true_iff in Heq, Hhq. destruct Heq as [A B], Hhq as [C D].
          destruct (dict_get "in" pm), (dict_get "name" pm), q as [q1 q2];
            simpl in *; try discriminate; try reflexivity;
            destruct q1, q2; simpl in *; discriminate. }
        rewrite (key_eq_trans _ q key0 Hhk Hhq Hh0 Heq E1) in E0. discriminate E0.
Qed.

(** [required_params]: of the entries of [parameters], those that are dicts
    with [required] exactly [true] count, each by its pair of [in] and
    [name]; every pair of the result comes from such an entry, and every
    such entry has its pair in the result. *)
Theorem required_params_members :
  forall (m : list (string * json)) (params : list json) (s : list param_key),
    py_iter (py_or (dict_get "parameters" m) (JArr [])) = Ok params ->
    required_params (JObj m) = Ok s ->
    (forall key, In key s ->
       exists pm, In (JObj pm) params
                  /\ dict_get "required" pm = JBool true
                  /\ key = (dict_get "in" pm, dict_get "name" pm)) /\
    (forall pm, In (JObj pm) params ->
       dict_get "required" pm = JBool true ->
       key_mem (dict_get "in" pm, dict_get "name" pm) s = true).
Proof.
  intros m params s Hp H. simpl in H. rewrite Hp in H. simpl in H.
  destruct (required_keys_members params s H) as [H1 H2]. split; [|exact H2].
  intros key Hk. destruct (H1 key Hk) as (_ & pm & Hpm). exists pm. exact Hpm.
Qed.

Lemma required_params_members_witness :
  py_iter (py_or (dict_get "parameters"
                    [("parameters",
                      JArr [JObj [("in", JStr "query"); ("name", JStr "id");
                                  ("required", JBool true)];
                            JObj [("in", JStr "query"); ("name", JStr "filter");
                                  ("required", JNum 1)]])])
                 (JArr []))
  = Ok [JObj [("in", JStr "query"); ("name", JStr "id"); ("required", JBool true)];
        JObj [("in", JStr "query"); ("name", JStr "filter");
              ("required", JNum 1)]] /\
  required_params
    (JObj [("parameters",
            JArr [JObj [("in", JStr "query"); ("name", JStr "id");
                        ("required", JBool true)];
                  JObj [("in", JStr "query"); ("name", JStr "filter");
                        ("required", JNum 1)]])])
  = Ok [(JStr "query", JStr "id")] /\
  key_mem (JStr "query", JStr "id") [(JStr "query", JStr "id")] = true.
Proof.
  split; [reflexivity|]. split; [reflexivity|].
  exact (proj2 (required_params_members
                  [("parameters",
                    JArr [JObj [("in", JStr "query"); ("name", JStr "id");
                                ("required", JBool true)];
                          JObj [("in", JStr "query"); ("name", JStr "filter");
                                ("required", JNum 1)]])]
                  [JObj [("in", JStr "query"); ("name", JStr "id");
                         ("required", JBool true)];
                   JObj [("in", JStr "query"); ("name", JStr "filter");
                         ("required", JNum 1)]]
                  [(JStr "query", JStr "id")] eq_refl eq_refl)
           [("in", JStr "query"); ("name", JStr "id"); ("required", JBool true)]
           (or_introl eq_refl) eq_refl).
Defined.

(* ================================================================== *)
(** ** One operation *)

Lemma sorted_by_ok {A : Type} (lt_ok lt : A -> A -> bool) (l l' : list A) :
  sorted_by lt_ok lt l = Ok l' -> l' = isort lt l.
Proof.
  unfold sorted_by. destruct (pairwise_ok lt_ok l); [|discriminate].
  intro H. inversion H; reflexivity.
Qed.

(** The parts of the list an operation present on both sides gives, in the
    order of lines 125-164. *)
Lemma operation_breaks_parts
  (fuel : nat) (base current : json) (b_ops c_ops : list (string * json))
  (path : json) (method : string) (out : list string) :
  operation_breaks fuel base current b_ops c_ops path method = Ok out ->
  exists bo co sc sb b_req c_req b_success c_success o_responses,
    dict_get method b_ops = JObj bo /\
    dict_get method c_ops = JObj co /\
    required_params (JObj co) = Ok sc /\
    required_params (JObj bo) = Ok sb /\
    body_required bo = Ok b_req /\
    body_required co = Ok c_req /\
    success_codes bo = Ok b_success /\
    success_codes co = Ok c_success /\
    for_each (sort_str (str_inter b_success c_success))
      (response_breaks fuel base current bo co method path) = Ok o_responses /\
    let o_params :=
      map (fun p => "Added required parameter on " ++ upper method ++ " "
                      ++ py_str path ++ ": " ++ py_str (fst p) ++ ":"
                      ++ py_str (snd p))
          (isort key_lt (key_diff sc sb)) in
    let o_body :=
      if negb b_req && c_req
      then ["Request body became required: " ++ upper method ++ " "
              ++ py_str path]
      else [] in
    let o_codes :=
      map (fun code => "Removed success response " ++ code ++ " on "
                         ++ upper method ++ " " ++ py_str path)
          (sort_str (str_diff b_success c_success)) in
    out = (o_params ++ o_body ++ o_codes ++ o_responses)%list.
Proof.
  intro H. unfold operation_breaks in H.
  bind_split H as sc Hsc. bind_split H as sb Hsb. bind_split H as nr Hnr.
  destruct (dict_get method b_ops) as [| | | | |bo]; try discriminate.
  destruct (dict_get method c_ops) as [| | | | |co]; try discriminate.
  bind_split H as b_req Hbr. bind_split H as c_req Hcr.
  bind_split H as b_success Hbs. bind_split H as c_success Hcs.
  bind_split H as o_resp Hor. inversion H; subst; clear H.
  apply sorted_by_ok in Hnr. subst nr.
  exists bo, co, sc, sb, b_req, c_req, b_success, c_success, o_resp.
  repeat (split; [assumption || reflexivity|]). reflexivity.
Qed.








(** The kinds of findings of one success code. *)
Lemma response_breaks_kinds (fuel : nat) (base current : json)
  (b c : list (string * json)) (method : string) (path : json) (code : string)
  (out : list string) :
  response_breaks fuel base current b c method path code = Ok out ->
  forall f, In f out ->
    begins "Removed response media type " f \/ begins (upper method ++ " ") f.
Proof.
  intros H f Hf. unfold response_breaks in H.
  bind_split H as b_content Hbc. bind_split H as c_content Hcc.
  bind_split H as sb Hsb. bind_split H as sc Hsc.
  bind_split H as removed_media Hrm. bind_split H as shared Hsh.
  bind_split H as out_schemas Hos. inversion H; subst; clear H.
  apply in_app_or in Hf. destruct Hf as [Hf|Hf].
  - left. apply in_map_iff in Hf. destruct Hf as (mt & <- & _).
    eexists; reflexivity.
  - right. destruct (for_each_ok_in _ _ _ Hos f Hf) as (mt & o & _ & Hbody & Ho).
    bind_split Hbody as b_schema Hbs. bind_split Hbody as c_schema Hcs.
    pose proof (schema_breaks_context _ _ _ _ _ _ _ Hbody f Ho) as B.
    destruct B as (r & ->). eexists. rewrite !str_app_assoc. reflexivity.
Qed.











(* ================================================================== *)
(** ** Whole documents *)




Lemma upper_lower_ascii (c : ascii) : upper_ascii (lower_ascii c) = upper_ascii c.
Proof. destruct c as [[] [] [] [] [] [] [] []]; reflexivity. Qed.

Lemma upper_lower (s : string) : upper (lower s) = upper s.
Proof.
  induction s as [|c s IH]; simpl; [reflexivity|].
  rewrite upper_lower_ascii, IH. reflexivity.
Qed.

Lemma operation_breaks_kinds (fuel : nat) (base current : json)
  (b_ops c_ops : list (string * json)) (path : json) (method : string)
  (out : list string) :
  operation_breaks fuel base current b_ops c_ops path method = Ok out ->
  forall f, In f out ->
    begins "Added required parameter on " f
    \/ begins "Request body became required: " f
    \/ begins "Removed success response " f
    \/ begins "Removed response media type " f
    \/ begins (upper method ++ " ") f.
Proof.
  intros H f Hf.
  destruct (operation_breaks_parts _ _ _ _ _ _ _ _ H)
    as (bo & co & sc & sb & b_req & c_req & bs & cs & o_resp
        & _ & _ & _ & _ & _ & _ & _ & _ & Hresp & Hout).
  simpl in Hout. rewrite Hout in Hf. clear Hout.
  apply in_app_or in Hf. destruct Hf as [Hf|Hf].
  { left. apply in_map_iff in Hf. destruct Hf as (p & <- & _).
    eexists; reflexivity. }
  apply in_app_or in Hf. destruct Hf as [Hf|Hf].
  { right. left. destruct (negb b_req && c_req); [|contradiction].
    destruct Hf as [<-|[]]. eexists; reflexivity. }
  apply in_app_or in Hf. destruct Hf as [Hf|Hf].
  { right. right. left. apply in_map_iff in Hf. destruct Hf as (code & <- & _).
    eexists; reflexivity. }
  right. right. right.
  destruct (for_each_ok_in _ _ _ Hresp _ Hf) as (code & o & _ & Hbody & Ho).
  exact (response_breaks_kinds _ _ _ _ _ _ _ _ _ Hbody _ Ho).
Qed.

(** Whatever the two documents, every line of a comparison that completes
    is of one of seven kinds: the six texts of [main], or a finding of
    [schema_breaks] whose context starts with a method of the vocabulary
    in upper case. *)
Theorem every_finding_has_a_kind :
  forall (fuel : nat) (base current : json) (out : list string) (f : string),
    compare_documents fuel base current = Ok out ->
    In f out ->
    finding_kind f.
Proof.
  intros fuel base current out f H Hf. unfold compare_documents in H.
  bind_split H as base_paths Hbp. bind_split H as curr_paths Hcp.
  bind_split H as sb Hsb. bind_split H as sc Hsc.
  bind_split H as removed Hrem. bind_split H as shared Hsh.
  bind_split H as out_shared Hos. inversion H; subst; clear H.
  unfold finding_kind.
  apply in_app_or in Hf. destruct Hf as [Hf|Hf].
  { left. apply in_map_iff in Hf. destruct Hf as (p & <- & _).
    eexists; reflexivity. }
  right.
  destruct (for_each_ok_in _ _ _ Hos _ Hf) as (path & o & _ & Hbody & Ho).
  unfold path_breaks in Hbody.
  bind_split Hbody as b_item Hbi. bind_split Hbody as b_ops Hbo.
  bind_split Hbody as c_item Hci. bind_split Hbody as c_ops Hco.
  bind_split Hbody as o_shared Hsm. inversion Hbody; subst; clear Hbody.
  apply in_app_or in Ho. destruct Ho as [Ho|Ho].
  { left. apply in_map_iff in Ho. destruct Ho as (m & <- & _).
    eexists; reflexivity. }
  right.
  destruct (for_each_ok_in _ _ _ Hsm _ Ho) as (m & om & Hm & Hop & Hom).
  destruct (operation_breaks_kinds _ _ _ _ _ _ _ _ Hop _ Hom)
    as [B|[B|[B|[B|B]]]]; auto.
  do 4 right.
  apply sort_str_In, str_inter_In in Hm. destruct Hm as [Hm _].
  pose proof (operations_keys _ _ _ Hbo Hm) as Hl.
  exists (lower m). split; [apply mem_str_In; exact Hl|].
  rewrite upper_lower. exact B.
Qed.

Lemma every_finding_has_a_kind_witness :
  compare_documents 4
    (one_path "/pets" (JObj [("get", list_pets_v1)]))
    (one_path "/pets" (JObj [("get", list_pets_v2)]))
  = Ok list_pets_findings /\
  finding_kind
    "GET /pets 200 [application/json].id: schema type changed from string to integer".
Proof.
  split; [reflexivity|].
  refine (every_finding_has_a_kind 4
            (one_path "/pets" (JObj [("get", list_pets_v1)]))
            (one_path "/pets" (JObj [("get", list_pets_v2)]))
            list_pets_findings _ eq_refl _).
  do 4 right. left. reflexivity.
Defined.

(* ================================================================== *)
(** ** A document compared with itself *)

Lemma wf_entries_find (m : list (string * json)) (k : string) (v : json) :
  forallb (fun kv => well_formed (snd kv)) m = true ->
  dict_find k m = Some v -> well_formed v = true.
Proof.
  induction m as [|[k' v'] m IH]; simpl; [discriminate|].
  intro H. apply andb_true_iff in H. destruct H as [Hv Hm].
  destruct (k =? k'); [intro E; inversion E; subst; exact Hv | auto].
Qed.

Lemma wf_dict_get_filter (P : string * json -> bool) (m : list (string * json))
  (k : string) :
  well_formed (JObj m) = true -> well_formed (dict_get k (filter P m)) = true.
Proof.
  simpl. intro H. apply andb_true_iff in H. destruct H as [_ H].
  unfold dict_get. destruct (dict_find k (filter P m)) as [v|] eqn:E; [|reflexivity].
  apply (wf_entries_find (filter P m) k v); [|exact E].
  apply forallb_forall. intros x Hx. apply filter_In in Hx.
  rewrite forallb_forall in H. apply H, Hx.
Qed.

Lemma wf_paths_of (doc v : json) :
  well_formed doc = true -> paths_of doc = Ok v -> well_formed v = true.
Proof.
  intros Hwf H. destruct doc as [| | | | |m]; try discriminate. simpl in H.
  destruct (dict_find "paths" m) as [x|] eqn:E; inversion H; subst;
    [eapply wf_dict_find; eassumption | reflexivity].
Qed.

Lemma wf_response_of (op : list (string * json)) (code : string) :
  well_formed (JObj op) = true -> well_formed (response_of op code) = true.
Proof.
  intro H. unfold response_of.
  assert (Hr : well_formed (py_or (dict_get "responses" op) (JObj [])) = true)
    by (apply wf_py_or; [apply wf_dict_get; exact H | reflexivity]).
  destruct (py_or (dict_get "responses" op) (JObj [])) as [| | | | |r];
    try reflexivity.
  apply wf_py_or; [apply wf_dict_get; exact Hr | reflexivity].
Qed.

Lemma wf_content_of (resp v : json) :
  well_formed resp = true -> content_of resp = Ok v -> well_formed v = true.
Proof.
  intros Hwf H. destruct resp as [| | | | |r]; try discriminate.
  inversion H; subst. apply wf_py_or; [apply wf_dict_get; exact Hwf | reflexivity].
Qed.

Lemma wf_schema_of (content mt v : json) :
  well_formed content = true -> schema_of content mt = Ok v ->
  well_formed v = true.
Proof.
  intros Hwf H. unfold schema_of in H. bind_split H as media Hm.
  assert (Hmedia : well_formed media = true).
  { destruct content as [| | | | |m]; try discriminate. simpl in Hm.
    destruct mt; inversion Hm; subst; try reflexivity.
    apply wf_dict_get; exact Hwf. }
  assert (Hor : well_formed (py_or media (JObj [])) = true)
    by (apply wf_py_or; [exact Hmedia | reflexivity]).
  destruct (py_or media (JObj [])) as [| | | | |e]; try discriminate.
  inversion H; subst. apply wf_py_or; [apply wf_dict_get; exact Hor | reflexivity].
Qed.

Lemma key_diff_self (params : list json) (s : list param_key) :
  required_keys params = Ok s -> key_diff s s = [].
Proof.
  intro H. destruct (required_keys_members params s H) as [H1 _].
  unfold key_diff.
  assert (Hall : forall l, incl l s ->
            filter (fun p => negb (key_mem p s)) l = []).
  { induction l as [|x l IH]; intro Hincl; [reflexivity|]. simpl.
    assert (Hx : In x s) by (apply Hincl; left; reflexivity).
    assert (Hm : key_mem x s = true).
    { unfold key_mem. apply existsb_exists. exists x. split; [exact Hx|].
      apply key_eq_refl, H1, Hx. }
    rewrite Hm. simpl. apply IH. intros y Hy. apply Hincl. right; exact Hy. }
  apply Hall, incl_refl.
Qed.

Lemma str_diff_self (l : list string) : str_diff l l = [].
Proof. apply str_diff_nil, incl_refl. Qed.

Lemma response_breaks_same (fuel : nat) (doc : json) (op : list (string * json))
  (method : string) (path : json) (code : string) (out : list string) :
  well_formed doc = true ->
  well_formed (JObj op) = true ->
  response_breaks fuel doc doc op op method path code = Ok out ->
  out = [].
Proof.
  intros Hwd Hwo H. unfold response_breaks in H.
  bind_split H as b_content Hbc. bind_split H as c_content Hcc.
  assert (c_content = b_content) by congruence. subst c_content.
  bind_split H as sb Hsb. bind_split H as sc Hsc.
  assert (sc = sb) by congruence. subst sc.
  rewrite (set_diff_self _ _ Hsb) in H. simpl in H.
  bind_split H as shared Hsh. bind_split H as o_schemas Hos.
  inversion H; subst; clear H. simpl.
  eapply for_each_all_nil; [|exact Hos].
  intros mt o _ Hbody.
  bind_split Hbody as b_schema Hbs. bind_split Hbody as c_schema Hcs.
  assert (c_schema = b_schema) by congruence. subst c_schema.
  eapply same_schema_nil; [|exact Hwd|exact Hbody].
  eapply wf_schema_of; [|exact Hbs].
  eapply wf_content_of; [|exact Hbc]. apply wf_response_of. exact Hwo.
Qed.

Lemma operation_breaks_same (fuel : nat) (doc : json)
  (ops : list (string * json)) (path : json) (method : string)
  (out : list string) :
  well_formed doc = true ->
  well_formed (dict_get method ops) = true ->
  operation_breaks fuel doc doc ops ops path method = Ok out ->
  out = [].
Proof.
  intros Hwd Hwo H.
  destruct (operation_breaks_parts _ _ _ _ _ _ _ _ H)
    as (bo & co & sc & sb & b_req & c_req & bs & cs & o_resp
        & Eb & Ec & Hsc & Hsb & Hbr & Hcr & Hbs & Hcs & Hresp & Hout).
  assert (co = bo) by congruence. subst co.
  assert (sc = sb) by congruence. subst sc.
  assert (c_req = b_req) by congruence. subst c_req.
  assert (cs = bs) by congruence. subst cs.
  simpl in Hout. rewrite Hout. clear Hout.
  assert (Hk : key_diff sb sb = []).
  { simpl in Hsb.
    destruct (py_iter (py_or (dict_get "parameters" bo) (JArr []))) as [ps|] eqn:E;
      [|discriminate]. simpl in Hsb. eapply key_diff_self; exact Hsb. }
  rewrite Hk, str_diff_self. simpl.
  replace (negb b_req && b_req) with false by (destruct b_req; reflexivity).
  simpl. eapply for_each_all_nil; [|exact Hresp].
  intros code o _ Hbody.
  eapply response_breaks_same; [exact Hwd| |exact Hbody].
  rewrite <- Eb. exact Hwo.
Qed.

Lemma same_document_nil (fuel : nat) (doc : json) (out : list string) :
  well_formed doc = true ->
  compare_documents fuel doc doc = Ok out ->
  out = [].
Proof.
  intros Hwd H. unfold compare_documents in H.
  bind_split H as base_paths Hbp. bind_split H as curr_paths Hcp.
  assert (curr_paths = base_paths) by congruence. subst curr_paths.
  bind_split H as sb Hsb. bind_split H as sc Hsc.
  assert (sc = sb) by congruence. subst sc.
  rewrite (set_diff_self _ _ Hsb) in H. simpl in H.
  bind_split H as shared Hsh. bind_split H as o_shared Hos.
  inversion H; subst; clear H. simpl.
  eapply for_each_all_nil; [|exact Hos].
  intros path o _ Hbody. unfold path_breaks in Hbody.
  bind_split Hbody as b_item Hbi. bind_split Hbody as b_ops Hbo.
  bind_split Hbody as c_item Hci. bind_split Hbody as c_ops Hco.
  assert (c_item = b_item) by congruence. subst c_item.
  assert (c_ops = b_ops) by congruence. subst c_ops.
  bind_split Hbody as o_methods Hom. inversion Hbody; subst; clear Hbody.
  rewrite str_diff_self. simpl.
  eapply for_each_all_nil; [|exact Hom].
  intros method om _ Hop.
  eapply operation_breaks_same; [exact Hwd| |exact Hop].
  assert (Hwi : well_formed b_item = true).
  { eapply wf_py_getitem; [|exact Hbi]. eapply wf_paths_of; eassumption. }
  destruct b_item as [| | | | |bi]; try discriminate.
  simpl in Hbo. inversion Hbo; subst. apply wf_dict_get_filter. exact Hwi.
Qed.


(* ================================================================== *)
(** ** Removed paths *)











Lemma unresolvable_base_is_opaque_witness :
  walk Cyclic.document (ref_tokens "#/components/schemas/Missing") = None /\
  resolve_ref 1 (py_or pet_curr (JObj [])) Cyclic.document [] = Ok pet_curr /\
  schema_breaks 2 (JObj [("$ref", JStr "#/components/schemas/Missing")])
    pet_curr Cyclic.document Cyclic.document "Pet"
  = Ok [].
Proof.
  split; [reflexivity|]. split; [reflexivity|].
  exact (unresolvable_base_is_opaque 0 "#/components/schemas/Missing" pet_curr
           Cyclic.document Cyclic.document pet_curr "Pet" eq_refl eq_refl).
Defined.

(* ================================================================== *)
(** ** Schemas whose fields have the expected types *)

Lemma py_set_strs (l : list string) :
  exists u, py_set (JArr (map JStr l)) = Ok (map JStr u).
Proof.
  destruct (set_of_strs l) as (u & Hu & _). exists u.
  unfold py_set. simpl. exact Hu.
Qed.

Lemma typed_enum_returns (bm cm : list (string * json)) (ctx : string) :
  (forall l, dict_get "enum" bm = JArr l -> exists vals, l = map JStr vals) ->
  (forall l, dict_get "enum" cm = JArr l -> exists vals, l = map JStr vals) ->
  exists o, enum_breaks bm cm ctx = Ok o.
Proof.
  intros Hb Hc. unfold enum_breaks.
  destruct (dict_get "enum" bm) as [| | | |lb|] eqn:Eb; try (eexists; reflexivity).
  destruct (dict_get "enum" cm) as [| | | |lc|] eqn:Ec; try (eexists; reflexivity).
  destruct (Hb lb eq_refl) as (vb & ->). destruct (Hc lc eq_refl) as (vc & ->).
  destruct (py_set_strs vb) as (ub & ->). destruct (py_set_strs vc) as (uc & ->).
  simpl. rewrite set_diff_strs, py_sorted_strs. eexists; reflexivity.
Qed.

Lemma typed_required_set (m : list (string * json)) :
  (dict_get "required" m = JNull
   \/ exists names, dict_get "required" m = JArr (map JStr names)) ->
  exists u, py_set (py_or (dict_get "required" m) (JArr [])) = Ok (map JStr u).
Proof.
  intros [->|(names & ->)].
  - exists []. reflexivity.
  - rewrite py_or_strs. apply py_set_strs.
Qed.

Lemma typed_required_returns (bm cm : list (string * json)) (ctx : string) :
  (dict_get "required" bm = JNull
   \/ exists names, dict_get "required" bm = JArr (map JStr names)) ->
  (dict_get "required" cm = JNull
   \/ exists names, dict_get "required" cm = JArr (map JStr names)) ->
  exists o, required_breaks bm cm ctx = Ok o.
Proof.
  intros Hb Hc. unfold required_breaks.
  destruct (typed_required_set bm Hb) as (ub & ->).
  destruct (typed_required_set cm Hc) as (uc & ->).
  simpl. rewrite set_diff_strs, py_sorted_strs. eexists; reflexivity.
Qed.

Lemma typed_properties (m : list (string * json)) :
  (dict_get "properties" m = JNull
   \/ exists ps, dict_get "properties" m = JObj ps
                 /\ forall k v, dict_find k ps = Some v -> typed_schema v) ->
  exists ps,
    py_or (dict_get "properties" m) (JObj []) = JObj ps /\
    forall k v, dict_find k ps = Some v ->
      typed_schema v /\ depth v + 2 <= depth (JObj m).
Proof.
  intros [E|(ps & E & Hall)].
  - rewrite E. exists []. split; [reflexivity|]. intros k v H; discriminate H.
  - rewrite E, py_or_dict. exists ps. split; [reflexivity|].
    intros k v Hk. split; [eapply Hall; exact Hk|].
    pose proof (depth_dict_find ps k v Hk) as H1.
    assert (H2 : depth (dict_get "properties" m) < depth (JObj m))
      by (apply depth_dict_get; rewrite E; discriminate).
    rewrite E in H2. lia.
Qed.

Lemma typed_items (m : list (string * json)) :
  (dict_get "items" m = JNull \/ typed_schema (dict_get "items" m)) ->
  exists mi,
    py_or (dict_get "items" m) (JObj []) = JObj mi /\
    typed_schema (JObj mi) /\
    (mi = [] \/ depth (JObj mi) < depth (JObj m)).
Proof.
  intros [E|Hi].
  - rewrite E. exists []. split; [reflexivity|]. split; [|left; reflexivity].
    constructor; try (left; reflexivity); try reflexivity.
    intros l H. discriminate H.
  - assert (Em : exists mi, dict_get "items" m = JObj mi)
      by (inversion Hi; eexists; reflexivity).
    destruct Em as (mi & Emi).
    pose proof (depth_dict_get m "items") as Hlt.
    rewrite Emi in *. rewrite py_or_dict. exists mi.
    split; [reflexivity|]. split; [exact Hi|].
    right. apply Hlt. discriminate.
Qed.

Lemma empty_base_returns (n : nat) (cm : list (string * json))
  (base_doc curr_doc : json) (ctx : string) :
  dict_find "$ref" cm = None ->
  schema_breaks (S (S n)) (JObj []) (JObj cm) base_doc curr_doc ctx = Ok [].
Proof.
  intro Href.
  assert (Hb : resolve_ref (S n) (py_or (JObj []) (JObj [])) base_doc []
               = Ok (JObj [])) by reflexivity.
  assert (Hc : resolve_ref (S n) (py_or (JObj cm) (JObj [])) curr_doc []
               = Ok (JObj cm))
    by (rewrite py_or_dict; apply resolve_plain; exact Href).
  rewrite (schema_breaks_resolved _ _ _ _ _ _ _ _ Hb Hc). reflexivity.
Qed.

Lemma typed_schemas_return :
  forall (fuel : nat) (base_schema curr_schema base_doc curr_doc : json)
         (ctx : string),
    typed_schema base_schema ->
    typed_schema curr_schema ->
    depth base_schema + 1 < fuel ->
    exists out,
      schema_breaks fuel base_schema curr_schema base_doc curr_doc ctx = Ok out.
Proof.
  induction fuel as [|fuel IH]; intros b c bd cd ctx Hb Hc Hd; [lia|].
  destruct Hb as [bm Hbref Hbenum Hbreq Hbprops Hbitems].
  destruct Hc as [cm Hcref Hcenum Hcreq Hcprops Hcitems].
  assert (Hdm : 1 <= depth (JObj bm)) by (simpl; lia).
  destruct fuel as [|f]; [lia|].
  assert (Rb : resolve_ref (S f) (py_or (JObj bm) (JObj [])) bd [] = Ok (JObj bm))
    by (rewrite py_or_dict; apply resolve_plain; exact Hbref).
  assert (Rc : resolve_ref (S f) (py_or (JObj cm) (JObj [])) cd [] = Ok (JObj cm))
    by (rewrite py_or_dict; apply resolve_plain; exact Hcref).
  rewrite (schema_breaks_resolved _ _ _ _ _ _ _ _ Rb Rc).
  destruct (type_changed bm cm); [eexists; reflexivity|].
  unfold structure_breaks.
  destruct (typed_enum_returns bm cm ctx Hbenum Hcenum) as (o_enum & ->).
  cbn [bind].
  assert (Hobj : exists o,
            (out_required <- required_breaks bm cm ctx ;;
             out_props <- properties_breaks (S f) bm cm bd cd ctx ;;
             Ok (out_required ++ out_props)%list) = Ok o).
  { destruct (typed_required_returns bm cm ctx Hbreq Hcreq) as (o_req & ->).
    simpl.
    destruct (typed_properties bm Hbprops) as (pb & Epb & Hallb).
    destruct (typed_properties cm Hcprops) as (pc & Epc & Hallc).
    unfold properties_breaks. rewrite Epb, Epc, !py_set_dict. simpl.
    rewrite set_diff_strs, py_sorted_strs. simpl.
    rewrite set_inter_strs, py_sorted_strs. simpl.
    match goal with
    | |- context [for_each ?l ?body] =>
        destruct (for_each_ok body l) as (o_nested & ->)
    end; [|eexists; reflexivity].
    intros x Hx. apply in_map_iff in Hx. destruct Hx as (k & <- & Hk).
    rewrite sort_str_In in Hk.
    assert (Hk' : In k (dict_keys pb) /\ In k (dict_keys pc)).
    { destruct (length (dict_keys pb) <? length (dict_keys pc))%nat;
        apply str_inter_In in Hk; tauto. }
    destruct Hk' as [Hkb Hkc].
    apply dict_keys_In in Hkb. apply dict_keys_In in Hkc.
    unfold dict_has in Hkb, Hkc. simpl.
    destruct (dict_find k pb) as [vb|] eqn:Evb; [|discriminate].
    destruct (dict_find k pc) as [vc|] eqn:Evc; [|discriminate]. simpl.
    destruct (Hallb k vb Evb) as [Hpb Hdb].
    destruct (Hallc k vc Evc) as [Hpc _].
    apply IH; [exact Hpb | exact Hpc | lia]. }
  assert (Harr : exists o,
            schema_breaks (S f) (py_or (dict_get "items" bm) (JObj []))
              (py_or (dict_get "items" cm) (JObj [])) bd cd (ctx ++ "[]") = Ok o).
  { destruct (typed_items bm Hbitems) as (bi & -> & Hbi & Hdi).
    destruct (typed_items cm Hcitems) as (ci & -> & Hci & _).
    destruct Hdi as [->|Hlt].
    - destruct f as [|f']; [lia|]. eexists. apply empty_base_returns.
      inversion Hci; assumption.
    - apply IH; [exact Hbi | exact Hci | lia]. }
  destruct Harr as (o_arr & Harr).
  destruct (py_eq (dict_get "type" bm) (JStr "object") || dict_has "properties" bm).
  - destruct Hobj as (o_obj & ->). cbn [bind].
    destruct (py_eq (dict_get "type" bm) (JStr "array")
              && py_eq (dict_get "type" cm) (JStr "array"));
      [rewrite Harr|]; eexists; reflexivity.
  - cbn [bind].
    destruct (py_eq (dict_get "type" bm) (JStr "array")
              && py_eq (dict_get "type" cm) (JStr "array"));
      [rewrite Harr|]; eexists; reflexivity.
Qed.

(** Two schemas without pointers whose fields have the expected types can
    always be compared: with a depth of two more than the nesting of the
    base schema the comparison returns a list and raises nothing. *)
Theorem typed_schemas_never_raise :
  forall (fuel : nat) (base_schema curr_schema base_doc curr_doc : json)
         (ctx : string),
    typed_schema base_schema ->
    typed_schema curr_schema ->
    depth base_schema + 1 < fuel ->
    exists out,
      schema_breaks fuel base_schema curr_schema base_doc curr_doc ctx = Ok out.
Proof. exact typed_schemas_return. Qed.

Lemma typed_scalar (t : string) : typed_schema (JObj [("type", JStr t)]).
Proof.
  constructor; try (left; reflexivity); try reflexivity.
  intros l H. discriminate H.
Qed.

Lemma pet_base_typed : typed_schema pet_base.
Proof.
  constructor.
  - reflexivity.
  - intros l H. discriminate H.
  - right. exists ["id"]. reflexivity.
  - right. eexists. split; [reflexivity|].
    intros k v H. simpl in H.
    destruct (k =? "id"); [|discriminate H]. inversion H; subst.
    apply typed_scalar.
  - left; reflexivity.
Qed.

Lemma pet_curr_typed : typed_schema pet_curr.
Proof.
  constructor.
  - reflexivity.
  - intros l H. discriminate H.
  - right. exists ["id"]. reflexivity.
  - right. eexists. split; [reflexivity|].
    intros k v H. simpl in H.
    destruct (k =? "id"); [inversion H; subst; apply typed_scalar|].
    destruct (k =? "name"); [|discriminate H]. inversion H; subst.
    apply typed_scalar.
  - left; reflexivity.
Qed.

Lemma typed_schemas_never_raise_witness :
  typed_schema pet_base /\ typed_schema pet_curr /\
  depth pet_base + 1 < 5 /\
  exists out,
    schema_breaks 5 pet_base pet_curr Cyclic.document Cyclic.document "Pet"
    = Ok out.
Proof.
  split; [exact pet_base_typed|]. split; [exact pet_curr_typed|].
  split; [simpl; lia|].
  apply typed_schemas_never_raise;
    [exact pet_base_typed | exact pet_curr_typed | simpl; lia].
Defined.

(* ================================================================== *)
(** ** Documents whose fields have the expected types *)

Lemma typed_empty_schema : typed_schema (JObj []).
Proof.
  constructor; try (left; reflexivity); try reflexivity.
  intros l H. discriminate H.
Qed.

Lemma depth_dict_get_le (m : list (string * json)) (k : string) :
  depth (dict_get k m) <= depth (JObj m).
Proof.
  unfold dict_get. destruct (dict_find k m) as [v|] eqn:E.
  - pose proof (depth_dict_find m k v E). lia.
  - simpl. lia.
Qed.

Lemma typed_required_keys (ps : list json) :
  Forall typed_parameter ps ->
  exists s, required_keys ps = Ok s /\ Forall string_key s.
Proof.
  induction 1 as [|p ps Hp Hps IH]; simpl; [exists []; split; constructor|].
  destruct IH as (s & Es & Hs).
  destruct p as [| | | | |pm]; try (exists s; split; assumption).
  destruct (dict_get "required" pm) as [|[|]| | | |] eqn:Er;
    try (exists s; split; assumption).
  destruct (Hp pm eq_refl Er) as (loc & name & -> & ->). simpl.
  rewrite Es. simpl. eexists. split; [reflexivity|].
  constructor; [exists loc, name; reflexivity|].
  apply Forall_forall. intros x Hx. apply filter_In in Hx.
  rewrite Forall_forall in Hs. apply Hs, Hx.
Qed.

Lemma typed_required_params (op : json) :
  typed_operation op ->
  exists s, required_params op = Ok s /\ Forall string_key s.
Proof.
  intros (m & -> & Hparams & _). simpl.
  destruct Hparams as [->|(ps & -> & Hps)].
  - exists []. split; [reflexivity | constructor].
  - assert (E : py_iter (py_or (JArr ps) (JArr [])) = Ok ps)
      by (destruct ps; reflexivity).
    rewrite E. simpl. apply typed_required_keys, Hps.
Qed.

Lemma string_keys_comparable (l : list param_key) :
  Forall string_key l -> pairwise_ok key_lt_ok l = true.
Proof.
  induction 1 as [|x l Hx Hl IH]; simpl; [reflexivity|].
  rewrite IH, andb_true_r. apply forallb_forall. intros y Hy.
  rewrite Forall_forall in Hl.
  destruct Hx as (a & b & ->). destruct (Hl y Hy) as (a' & b' & ->).
  unfold key_lt_ok. simpl.
  destruct (a =? a'); [destruct (b =? b')|]; reflexivity.
Qed.

Lemma string_keys_sorted (l : list param_key) :
  Forall string_key l -> sorted_by key_lt_ok key_lt l = Ok (isort key_lt l).
Proof.
  intro H. unfold sorted_by. rewrite (string_keys_comparable l H). reflexivity.
Qed.

Lemma typed_body_required (m : list (string * json)) :
  (dict_get "requestBody" m = JNull
   \/ exists rb, dict_get "requestBody" m = JObj rb) ->
  exists b, body_required m = Ok b.
Proof.
  unfold body_required. intros [->|(rb & ->)].
  - eexists; reflexivity.
  - rewrite py_or_dict. eexists; reflexivity.
Qed.

Lemma typed_success_codes (m : list (string * json)) :
  (dict_get "responses" m = JNull
   \/ exists rs, dict_get "responses" m = JObj rs /\
        forall code resp, dict_find code rs = Some resp -> typed_response resp) ->
  exists l, success_codes m = Ok l.
Proof.
  unfold success_codes. intros [->|(rs & -> & _)].
  - eexists; reflexivity.
  - rewrite py_or_dict. eexists; reflexivity.
Qed.

(** The content of a response of a typed operation: a dict of typed media,
    none deeper than the operation. *)
Lemma typed_content (m : list (string * json)) (code : string) :
  typed_operation (JObj m) ->
  exists c,
    content_of (response_of m code) = Ok (JObj c) /\
    forall mt media, dict_find mt c = Some media ->
      typed_media media /\ depth media < depth (JObj m).
Proof.
  intros (m' & E & _ & _ & Hresp). inversion E; subst m'. clear E.
  assert (Hnone : exists c,
            content_of (JObj []) = Ok (JObj c) /\
            forall mt media, dict_find mt c = Some media ->
              typed_media media /\ depth media < depth (JObj m)).
  { exists []. split; [reflexivity|]. intros mt media H. discriminate H. }
  unfold response_of.
  destruct Hresp as [->|(rs & Ers & Hall)]; [exact Hnone|].
  rewrite Ers, py_or_dict.
  assert (Hrs : depth (JObj rs) <= depth (JObj m))
    by (rewrite <- Ers; apply depth_dict_get_le).
  unfold dict_get at 1.
  destruct (dict_find code rs) as [resp|] eqn:Ecode; [|exact Hnone].
  pose proof (depth_dict_find rs code resp Ecode) as Hdr.
  destruct (Hall code resp Ecode) as [->|(r & -> & Hcontent)]; [exact Hnone|].
  rewrite py_or_dict. unfold content_of.
  destruct Hcontent as [->|(c & Ec & Hmedia)].
  - exists []. split; [reflexivity|]. intros mt media H. discriminate H.
  - rewrite Ec, py_or_dict. exists c. split; [reflexivity|].
    intros mt media Hm. split; [eapply Hmedia; exact Hm|].
    pose proof (depth_dict_find c mt media Hm) as H1.
    pose proof (depth_dict_get_le r "content") as H2. rewrite Ec in H2. lia.
Qed.

Lemma typed_schema_of (c : list (string * json)) (mt : string) (media : json) :
  dict_find mt c = Some media ->
  typed_media media ->
  exists s,
    schema_of (JObj c) (JStr mt) = Ok s /\ typed_schema s /\
    (s = JObj [] \/ depth s < depth media).
Proof.
  intros Hm Ht. unfold schema_of. simpl. unfold dict_get at 1. rewrite Hm. simpl.
  destruct Ht as [->|(e & -> & Hs)].
  - exists (JObj []). split; [reflexivity|]. split; [apply typed_empty_schema|].
    left; reflexivity.
  - rewrite py_or_dict.
    destruct Hs as [->|Hs].
    + exists (JObj []). split; [reflexivity|]. split; [apply typed_empty_schema|].
      left; reflexivity.
    + assert (Em : exists sm, dict_get "schema" e = JObj sm)
        by (inversion Hs; eexists; reflexivity).
      destruct Em as (sm & Esm).
      pose proof (depth_dict_get e "schema") as Hlt.
      rewrite Esm in *. rewrite py_or_dict. exists (JObj sm).
      split; [reflexivity|]. split; [exact Hs|].
      right. apply Hlt. discriminate.
Qed.

Lemma typed_response_returns (fuel : nat) (base current : json)
  (bo co : list (string * json)) (method : string) (path : json)
  (code : string) :
  typed_operation (JObj bo) ->
  typed_operation (JObj co) ->
  depth (JObj bo) + 1 < fuel ->
  exists out, response_breaks fuel base current bo co method path code = Ok out.
Proof.
  intros Hb Hc Hd.
  destruct (typed_content bo code Hb) as (bc & Ebc & Hbc).
  destruct (typed_content co code Hc) as (cc & Ecc & Hcc).
  unfold response_breaks. rewrite Ebc, Ecc. simpl.
  rewrite !py_set_dict. simpl.
  rewrite set_diff_strs, py_sorted_strs. simpl.
  rewrite set_inter_strs, py_sorted_strs. simpl.
  match goal with
  | |- context [for_each ?l ?body] =>
      destruct (for_each_ok body l) as (o_schemas & ->)
  end; [|eexists; reflexivity].
  intros x Hx. apply in_map_iff in Hx. destruct Hx as (mt & <- & Hmt).
  rewrite sort_str_In in Hmt.
  assert (Hk : In mt (dict_keys bc) /\ In mt (dict_keys cc)).
  { destruct (length (dict_keys bc) <? length (dict_keys cc))%nat;
      apply str_inter_In in Hmt; tauto. }
  destruct Hk as [Hkb Hkc].
  apply dict_keys_In in Hkb. apply dict_keys_In in Hkc.
  unfold dict_has in Hkb, Hkc.
  destruct (dict_find mt bc) as [mb|] eqn:Emb; [|discriminate].
  destruct (dict_find mt cc) as [mc|] eqn:Emc; [|discriminate].
  destruct (Hbc mt mb Emb) as [Htb Hdb].
  destruct (Hcc mt mc Emc) as [Htc _].
  destruct (typed_schema_of bc mt mb Emb Htb) as (sb & -> & Hsb & Hdsb).
  destruct (typed_schema_of cc mt mc Emc Htc) as (sc & -> & Hsc & _).
  cbn [bind].
  apply typed_schemas_return; [exact Hsb | exact Hsc |].
  destruct Hdsb as [->|Hlt]; [|lia].
  assert (1 <= depth (JObj bo)) by (simpl; lia). simpl. simpl in Hd. lia.
Qed.

Lemma typed_operation_returns (fuel : nat) (base current : json)
  (b_ops c_ops : list (string * json)) (path : json) (method : string) :
  typed_operation (dict_get method b_ops) ->
  typed_operation (dict_get method c_ops) ->
  depth (dict_get method b_ops) + 1 < fuel ->
  exists out,
    operation_breaks fuel base current b_ops c_ops path method = Ok out.
Proof.
  intros Hb Hc Hd. unfold operation_breaks.
  destruct (typed_required_params _ Hc) as (sc & -> & Hsc).
  destruct (typed_required_params _ Hb) as (sb & -> & Hsb).
  cbn [bind].
  assert (Hdiff : Forall string_key (key_diff sc sb)).
  { apply Forall_forall. intros x Hx. unfold key_diff in Hx.
    apply filter_In in Hx. rewrite Forall_forall in Hsc. apply Hsc, Hx. }
  rewrite (string_keys_sorted _ Hdiff). cbn [bind].
  pose proof Hb as (bo & Ebo & _ & Hbbody & Hbresp).
  pose proof Hc as (co & Eco & _ & Hcbody & Hcresp).
  rewrite Ebo, Eco in *.
  destruct (typed_body_required bo Hbbody) as (b_req & ->).
  destruct (typed_body_required co Hcbody) as (c_req & ->).
  destruct (typed_success_codes bo Hbresp) as (b_success & ->).
  destruct (typed_success_codes co Hcresp) as (c_success & ->).
  cbn [bind].
  match goal with
  | |- context [for_each ?l ?body] =>
      destruct (for_each_ok body l) as (o_resp & ->)
  end; [|eexists; reflexivity].
  intros code _. apply typed_response_returns; assumption.
Qed.

Lemma dict_find_filter_some (Q : string -> bool) (k : string) (v : json) :
  forall m, dict_find k (filter (fun kv => Q (fst kv)) m) = Some v ->
            dict_find k m = Some v /\ Q k = true.
Proof.
  intros m H.
  pose proof (dict_find_filter (fun kv => Q (fst kv)) k v m H) as HP.
  simpl in HP. split; [|exact HP].
  rewrite (dict_find_filter_key (fun kv => Q (fst kv)) k) in H; [exact H|].
  intro v'. exact HP.
Qed.

Lemma typed_path_returns (fuel : nat) (base current : json)
  (bp cp : list (string * json)) (q : string) :
  (forall p item, dict_find p bp = Some item -> typed_path_item item) ->
  (forall p item, dict_find p cp = Some item -> typed_path_item item) ->
  dict_has q bp = true ->
  dict_has q cp = true ->
  depth (JObj bp) + 1 < fuel ->
  exists out, path_breaks fuel base current (JObj bp) (JObj cp) (JStr q) = Ok out.
Proof.
  intros Hb Hc Hqb Hqc Hd. unfold path_breaks, dict_has in *. simpl.
  destruct (dict_find q bp) as [bitem|] eqn:Eb; [|discriminate].
  destruct (dict_find q cp) as [citem|] eqn:Ec; [|discriminate].
  destruct (Hb q bitem Eb) as (bi & -> & Hbi).
  destruct (Hc q citem Ec) as (ci & -> & Hci).
  pose proof (depth_dict_find bp q (JObj bi) Eb) as Hdi.
  unfold operations. cbn [bind].
  set (Q := fun k : string => mem_str (lower k) http_methods).
  change (fun kv : string * json => mem_str (lower (fst kv)) http_methods)
    with (fun kv : string * json => Q (fst kv)).
  match goal with
  | |- context [for_each ?l ?body] =>
      destruct (for_each_ok body l) as (o_shared & ->)
  end; [|eexists; reflexivity].
  intros k Hk. rewrite sort_str_In in Hk. apply str_inter_In in Hk.
  destruct Hk as [Hkb Hkc].
  apply dict_keys_In in Hkb. apply dict_keys_In in Hkc.
  unfold dict_has in Hkb, Hkc.
  destruct (dict_find k (filter (fun kv => Q (fst kv)) bi)) as [bop|] eqn:Ebop;
    [|discriminate].
  destruct (dict_find k (filter (fun kv => Q (fst kv)) ci)) as [cop|] eqn:Ecop;
    [|discriminate].
  destruct (dict_find_filter_some Q k bop bi Ebop) as [Fb Qk].
  destruct (dict_find_filter_some Q k cop ci Ecop) as [Fc _].
  apply typed_operation_returns; unfold dict_get; rewrite ?Ebop, ?Ecop.
  - exact (Hbi k bop Fb Qk).
  - exact (Hci k cop Fc Qk).
  - pose proof (depth_dict_find bi k bop Fb). lia.
Qed.

Lemma typed_paths_of (doc : json) :
  typed_document doc ->
  exists ps,
    paths_of doc = Ok (JObj ps) /\
    (forall p item, dict_find p ps = Some item -> typed_path_item item) /\
    depth (JObj ps) <= depth doc.
Proof.
  intros (m & -> & [E|(ps & E & Hall)]).
  - exists []. simpl paths_of. rewrite E. split; [reflexivity|].
    split; [intros p item H; discriminate H | simpl; lia].
  - exists ps. simpl paths_of. rewrite E. split; [reflexivity|].
    split; [exact Hall|].
    pose proof (depth_dict_find m "paths" (JObj ps) E). lia.
Qed.

Lemma typed_documents_return (fuel : nat) (base current : json) :
  typed_document base ->
  typed_document current ->
  depth base + 1 < fuel ->
  exists out, compare_documents fuel base current = Ok out.
Proof.
  intros Hb Hc Hd.
  destruct (typed_paths_of base Hb) as (bp & Ebp & Hbp & Hdp).
  destruct (typed_paths_of current Hc) as (cp & Ecp & Hcp & _).
  rewrite (compare_documents_dicts _ _ _ _ _ Ebp Ecp).
  match goal with
  | |- context [for_each ?l ?body] =>
      destruct (for_each_ok body l) as (o_shared & ->)
  end; [|eexists; reflexivity].
  intros x Hx. apply in_map_iff in Hx. destruct Hx as (q & <- & Hq).
  apply shared_paths_In in Hq. destruct Hq as [Hqb Hqc].
  apply typed_path_returns; try assumption. lia.
Qed.

(* ================================================================== *)
(** ** The example documents have fields of the expected types *)

Ltac dict_cases H :=
  simpl in H;
  repeat match type of H with
         | context [if (?k =? ?s)%string then _ else _] =>
             destruct (k =? s)%string
         end;
  first [discriminate H | inversion H; subst; clear H].

Ltac typed_param_tac :=
  let pm := fresh "pm" in
  let E := fresh "E" in
  let R := fresh "R" in
  intros pm E R;
  first [discriminate E
        | inversion E; subst; clear E;
          first [discriminate R | eexists; eexists; split; reflexivity]].

Lemma pet_media_typed (schema : json) :
  typed_schema schema -> typed_media (JObj [("schema", schema)]).
Proof.
  intro H. right. eexists. split; [reflexivity|]. right. exact H.
Qed.

Lemma empty_media_typed : typed_media (JObj []).
Proof. right. eexists. split; [reflexivity|]. left. reflexivity. Qed.

Lemma empty_response_typed : typed_response (JObj []).
Proof. right. eexists. split; [reflexivity|]. left. reflexivity. Qed.

Lemma empty_operation_typed : typed_operation (JObj []).
Proof.
  exists []. split; [reflexivity|].
  split; [left; reflexivity|]. split; left; reflexivity.
Qed.

Lemma list_pets_v1_typed : typed_operation list_pets_v1.
Proof.
  eexists. split; [reflexivity|]. split; [|split].
  - right. eexists. split; [reflexivity|].
    repeat constructor; typed_param_tac.
  - left. reflexivity.
  - right. eexists. split; [reflexivity|].
    intros code resp H. dict_cases H; try apply empty_response_typed.
    right. eexists. split; [reflexivity|].
    right. eexists. split; [reflexivity|].
    intros mt media Hm. dict_cases Hm.
    + apply pet_media_typed, pet_base_typed.
    + apply empty_media_typed.
Qed.


Lemma pets_v1_typed : typed_document pets_v1.
Proof.
  eexists. split; [reflexivity|]. right. eexists. split; [reflexivity|].
  intros p item H. dict_cases H.
  - eexists. split; [reflexivity|].
    intros k op Hk _. dict_cases Hk. apply list_pets_v1_typed.
  - eexists. split; [reflexivity|].
    intros k op Hk _. dict_cases Hk; apply list_pets_v1_typed.
Qed.


(* ================================================================== *)
(** ** The self-referential schema beside other changes *)




(* ================================================================== *)
(** ** Additions, removed paths and method keys in comparisons that complete *)










(* ================================================================== *)
(** ** Findings of comparisons that are shown to return *)


















(* ================================================================== *)
(** ** A document compared with itself, in full *)

(** A well-formed document that holds no floating-point number, compared
    with itself: whenever the comparison completes there is no finding; and
    when the document holds no pointer and its fields have the expected
    types, the comparison does complete, with the empty list, as soon as
    the depth allowed exceeds the nesting of the document by two. *)
Theorem same_document_no_findings :
  forall (fuel : nat) (doc : json),
    well_formed doc = true ->
    (forall out, compare_documents fuel doc doc = Ok out -> out = []) /\
    (typed_document doc ->
     depth doc + 1 < fuel ->
     compare_documents fuel doc doc = Ok []).
Proof.
  intros fuel doc Hwf. split.
  - intros out H. exact (same_document_nil fuel doc out Hwf H).
  - intros Td Hd.
    destruct (typed_documents_return fuel doc doc Td Td Hd) as (out & H).
    rewrite H. f_equal. exact (same_document_nil fuel doc out Hwf H).
Qed.

Lemma same_document_no_findings_witness :
  well_formed pets_v1 = true /\ typed_document pets_v1 /\
  depth pets_v1 + 1 < 13 /\
  compare_documents 13 pets_v1 pets_v1 = Ok [].
Proof.
  split; [reflexivity|]. split; [exact pets_v1_typed|]. split; [simpl; lia|].
  apply (proj2 (same_document_no_findings 13 pets_v1 eq_refl));
    [exact pets_v1_typed | simpl; lia].
Defined.

(** Comparing a file with itself: a run on two paths that load the same
    well-formed document, one that holds no floating-point number, ends
    with status 0 and the one line saying that nothing broke, or with an
    exception; it never reports a change.  It ends with status 0 when the
    document holds no pointer and its fields have the expected types, as
    soon as the depth allowed exceeds the nesting of the document by two. *)
Theorem main_same_file_never_reports :
  forall (fuel : nat) (load : string -> res json) (argv : list string)
         (doc : json),
    length argv = 3 ->
    load (nth 1 argv EmptyString) = Ok doc ->
    load (nth 2 argv EmptyString) = Ok doc ->
    well_formed doc = true ->
    ((status (main fuel load argv) = Ok 0%Z /\
      stdout (main fuel load argv) = ["No breaking OpenAPI changes detected."]) \/
     (exists e, status (main fuel load argv) = Raise e /\
                stdout (main fuel load argv) = [])) /\
    (typed_document doc ->
     depth doc + 1 < fuel ->
     status (main fuel load argv) = Ok 0%Z /\
     stdout (main fuel load argv) = ["No breaking OpenAPI changes detected."]).
Proof.
  intros fuel load argv doc Hlen H1 H2 Hwf. unfold main.
  rewrite Hlen, H1, H2. simpl. split.
  - destruct (compare_documents fuel doc doc) as [out|e] eqn:E.
    + rewrite (same_document_nil fuel doc out Hwf E). left. split; reflexivity.
    + right. exists e. split; reflexivity.
  - intros Td Hd.
    destruct (typed_documents_return fuel doc doc Td Td Hd) as (out & H).
    rewrite H, (same_document_nil fuel doc out Hwf H). split; reflexivity.
Qed.

Lemma main_same_file_never_reports_witness :
  length ["cmp"; "a.json"; "a.json"] = 3 /\
  well_formed pets_v1 = true /\ typed_document pets_v1 /\
  depth pets_v1 + 1 < 13 /\
  status (main 13 (fun _ => Ok pets_v1) ["cmp"; "a.json"; "a.json"]) = Ok 0%Z /\
  stdout (main 13 (fun _ => Ok pets_v1) ["cmp"; "a.json"; "a.json"])
  = ["No breaking OpenAPI changes detected."].
Proof.
  split; [reflexivity|]. split; [reflexivity|].
  split; [exact pets_v1_typed|]. split; [simpl; lia|].
  apply (proj2 (main_same_file_never_reports 13 (fun _ => Ok pets_v1)
                  ["cmp"; "a.json"; "a.json"] pets_v1
                  eq_refl eq_refl eq_refl eq_refl));
    [exact pets_v1_typed | simpl; lia].
Defined.
